(** * Arcade Physics Group (src/physics/arcade/PhysicsGroup.js)

    A shallow embedding of the Arcade [PhysicsGroup] class: the constructor
    that normalises its [children]/[config] arguments and builds the
    [defaults] table, the two membership hooks [createCallbackHandler] and
    [removeCallbackHandler], and the bulk velocity setters.

    JavaScript objects live in a store addressed by references, so that
    a record handed to the constructor and the record the constructor
    writes to are the same cell.  Calls that leave the file (the physics
    World, the Body setters, the base Group constructor) are recorded in a
    trace.  A thrown [TypeError] is the [None] outcome of a computation.

    Numbers are modelled by [Z]: the arithmetic of the file is
    [base + i * step], which doubles compute exactly as long as the
    operands and the results are integers of magnitude at most 2^53.  The
    theorems about stepped values carry that bound. *)

From Stdlib Require Import ZArith String List Lia.
From stdpp Require Import base option list strings.

Local Open Scope string_scope.
Local Open Scope Z_scope.
Local Open Scope list_scope.

(** ** Values and the object store *)

(** References into the store. *)
Abbreviation loc := nat (only parsing).

(** The functions that the file passes around as values. *)
Inductive func :=
| createCallbackHandlerRef
| removeCallbackHandlerRef
| ArcadeSprite
| OtherFunction (id : nat).

(** The values of the language.  A number is modelled by an integer: the
    file computes on numbers in the sums [x + i * step] of the velocity
    setters only, and there the arithmetic of doubles is the arithmetic of
    [Z] as long as the operands and the results are integers of magnitude at
    most 2^53 ([exact_steps] below). *)
Inductive value :=
| VUndefined
| VNull
| VBool (b : bool)
| VNum (n : Z)
| VStr (s : string)
| VFun (f : func)
| VRef (l : loc).

Arguments OtherFunction id%_nat.
Arguments VRef l%_nat.

(** What [IsPlainObject] and [Array.isArray] tell apart: an object written
    as a literal, an array, and an instance of a class (a Game Object, a Body,
    a Vector2, a Rectangle).  The instances of the physics World, the class
    with the methods [enableBody] and [disableBody], are kept apart from the
    other instances. *)
Inductive okind := PlainObject | ArrayObject | InstanceObject | WorldObject.

(** An object: its own properties in insertion order (the order in which
    [for ... in] visits them) and, for an array, its elements. *)
Record obj := Obj {
  kind : okind;
  props : list (string * value);
  elems : list value
}.

(** CONST.DYNAMIC_BODY and CONST.STATIC_BODY of ./const. *)
Inductive body_type := DYNAMIC_BODY | STATIC_BODY.

(** Calls made to the collaborators of the class. *)
Inductive event :=
| EnableBody (child : value) (ty : body_type)
| DisableBody (child : value)
| BodyCall (body : loc) (key : string) (val : value)
| GroupCall (scene children config : value).

Arguments BodyCall body%_nat key%_string val.

Record state := State {
  heap : list obj;
  trace : list event
}.

(** ** Property lists *)

Fixpoint lookup_prop (k : string) (ps : list (string * value)) : option value :=
  match ps with
  | [] => None
  | (k', v) :: ps' => if String.eqb k k' then Some v else lookup_prop k ps'
  end.

(** [o[k] = v]: an existing property keeps its place, a new one goes last. *)
Fixpoint assign_prop (k : string) (v : value) (ps : list (string * value))
  : list (string * value) :=
  match ps with
  | [] => [(k, v)]
  | (k', v') :: ps' =>
      if String.eqb k k' then (k, v) :: ps' else (k', v') :: assign_prop k v ps'
  end.

Definition set_props (o : obj) (ps : list (string * value)) : obj :=
  {| kind := kind o; props := ps; elems := elems o |}.

(** The value of [o.k] for an object [o]: [undefined] when [k] is absent. *)
Definition prop_get (ps : list (string * value)) (k : string) : value :=
  default VUndefined (lookup_prop k ps).

(** The property [k] of the cell [l], when both exist. *)
Definition field (h : list obj) (l : loc) (k : string) : option value :=
  o ← h !! l; lookup_prop k (props o).

Definition is_undefined (v : value) : bool :=
  match v with VUndefined => true | _ => false end.

(** ToBoolean. *)
Definition truthy (v : value) : bool :=
  match v with
  | VUndefined | VNull => false
  | VBool b => b
  | VNum n => negb (n =? 0)
  | VStr s => negb (String.eqb s "")
  | VFun _ | VRef _ => true
  end.

(** ** Computations: a state and error monad *)

Definition M (A : Type) : Type := state -> option (A * state).

#[global] Instance M_ret : MRet M := fun A a s => Some (a, s).
#[global] Instance M_bind : MBind M := fun A B f m s =>
  match m s with
  | Some (a, s') => f a s'
  | None => None
  end.

Definition throw {A : Type} : M A := fun _ => None.

Definition log (e : event) : M unit :=
  fun s => Some (tt, {| heap := heap s; trace := trace s ++ [e] |}).

Definition new_object (o : obj) : M value :=
  fun s => Some (VRef (length (heap s)),
                 {| heap := heap s ++ [o]; trace := trace s |}).

(** [v.k]: reading a property of [undefined] or [null] throws; a primitive
    has none of the properties read in this file. *)
Definition get (v : value) (k : string) : M value :=
  fun s =>
    match v with
    | VUndefined | VNull => None
    | VRef l =>
        match heap s !! l with
        | Some o => Some (prop_get (props o) k, s)
        | None => None
        end
    | _ => Some (VUndefined, s)
    end.

(** [v.k = x]: throws on [undefined] and [null]; on a primitive the
    assignment is dropped (the file is not in strict mode), and the own
    properties of function objects are not tracked. *)
Definition put (v : value) (k : string) (x : value) : M unit :=
  fun s =>
    match v with
    | VUndefined | VNull => None
    | VRef l =>
        match heap s !! l with
        | Some o =>
            Some (tt, {| heap := <[l := set_props o (assign_prop k x (props o))]> (heap s);
                         trace := trace s |})
        | None => None
        end
    | _ => Some (tt, s)
    end.

(** [v[i]] for an array index [i]. *)
Definition index (h : list obj) (v : value) (i : nat) : value :=
  match v with
  | VRef l =>
      match h !! l with
      | Some o => default VUndefined (elems o !! i)
      | None => VUndefined
      end
  | _ => VUndefined
  end.

(** [Array.isArray]. *)
Definition isArray (h : list obj) (v : value) : bool :=
  match v with
  | VRef l =>
      match h !! l with
      | Some o => match kind o with ArrayObject => true | _ => false end
      | None => false
      end
  | _ => false
  end.

Fixpoint for_each {A : Type} (f : A -> M unit) (l : list A) : M unit :=
  match l with
  | [] => mret tt
  | a :: l' => f a ;; for_each f l'
  end.

(** A read-only look at the store. *)
Definition reading {A : Type} (f : list obj -> A) : M A :=
  fun s => Some (f (heap s), s).

(** The elements that [children.forEach] visits. *)
Definition array_elems (h : list obj) (v : value) : list value :=
  match v with
  | VRef l => match h !! l with Some o => elems o | None => [] end
  | _ => []
  end.

(** ** Collaborators outside the file *)

(** Modelled from the spec: utils/object/IsPlainObject is not part of this
    file.  A configuration record is "detected structurally, not by type
    tag": the test holds of an object written as a literal and fails for
    arrays, class instances and everything that is not an object. *)
Definition IsPlainObject (h : list obj) (v : value) : bool :=
  match v with
  | VRef l =>
      match h !! l with
      | Some o => match kind o with PlainObject => true | _ => false end
      | None => false
      end
  | _ => false
  end.

(** Modelled from the spec: utils/object/GetFastValue is not part of this
    file.  It reads a named optional field of the configuration; an absent
    (or undefined) field gives the default. *)
Definition GetFastValue (h : list obj) (source : value) (key : string)
  (defaultValue : value) : value :=
  match source with
  | VRef l =>
      match field h l key with
      | Some v => if is_undefined v then defaultValue else v
      | None => defaultValue
      end
  | _ => defaultValue
  end.

(** Modelled from the spec: the Simulation World is not part of this file.
    [enableBody(entity, bodyKind)] is synchronous and, when it succeeds, the
    "entity now has a Body"; a Body has "a mutable velocity vector-like field
    with independently settable X/Y components". *)
Definition World_enableBody (child : value) (ty : body_type) : M unit :=
  log (EnableBody child ty);;
  velocity ← new_object (Obj InstanceObject [("x", VNum 0); ("y", VNum 0)] []);
  body ← new_object (Obj InstanceObject [("gameObject", child); ("velocity", velocity)] []);
  put child "body" body.

(** Modelled from the spec: [disableBody(entity)] requests detachment from
    the Simulation World; the request is all this file sees of it. *)
Definition World_disableBody (child : value) : M unit :=
  log (DisableBody child).

(** The value is an instance of the physics World. *)
Definition is_World (h : list obj) (w : value) : bool :=
  match w with
  | VRef l =>
      match h !! l with
      | Some o => match kind o with WorldObject => true | _ => false end
      | None => false
      end
  | _ => false
  end.

(** [w.method(...)] for a method of the World: throws when [w] is
    [undefined], [null] or anything else that is not a World. *)
Definition World_call (w : value) (method : M unit) : M unit :=
  fun s => if is_World (heap s) w then method s else None.

(** Modelled from the spec: the Body is not part of this file.  It "exposes
    one setter method per defaults-table key, each accepting a single value
    and mutating body state"; a setter is "a pure overwrite, not cumulative".
    Each setter is given here with the slot of the body that it overwrites;
    the slots are named after the configuration fields, and how the Body lays
    out its state behind them is its own business. *)
Definition Body_setters : list (string * string) :=
  [ ("setCollideWorldBounds", "collideWorldBounds");
    ("setBoundsRectangle", "customBoundsRectangle");
    ("setAccelerationX", "accelerationX");
    ("setAccelerationY", "accelerationY");
    ("setAllowDrag", "allowDrag");
    ("setAllowGravity", "allowGravity");
    ("setAllowRotation", "allowRotation");
    ("setBounceX", "bounceX");
    ("setBounceY", "bounceY");
    ("setDragX", "dragX");
    ("setDragY", "dragY");
    ("setEnable", "enable");
    ("setGravityX", "gravityX");
    ("setGravityY", "gravityY");
    ("setFrictionX", "frictionX");
    ("setFrictionY", "frictionY");
    ("setMaxVelocityX", "maxVelocityX");
    ("setMaxVelocityY", "maxVelocityY");
    ("setVelocityX", "velocityX");
    ("setVelocityY", "velocityY");
    ("setAngularVelocity", "angularVelocity");
    ("setAngularAcceleration", "angularAcceleration");
    ("setAngularDrag", "angularDrag");
    ("setMass", "mass");
    ("setImmovable", "immovable") ].

Fixpoint Body_slot (ms : list (string * string)) (key : string) : option string :=
  match ms with
  | [] => None
  | (m, slot) :: ms' => if String.eqb key m then Some slot else Body_slot ms' key
  end.

(** [body[key](val)]: throws when [body] is not an object or has no method
    [key]. *)
Definition Body_call (body : value) (key : string) (val : value) : M unit :=
  match body with
  | VRef l =>
      match Body_slot Body_setters key with
      | Some slot => log (BodyCall l key val);; put body slot val
      | None => throw
      end
  | _ => throw
  end.

(** Modelled from the spec: Vector2 is not part of this file; [set(x, y)]
    assigns the two components of the vector. *)
Definition Vector2_set (v : value) (x y : Z) : M unit :=
  match v with
  | VRef _ => put v "x" (VNum x);; put v "y" (VNum y)
  | _ => throw
  end.

(** Modelled from the spec: the base Group constructor is not part of this
    file.  It "accepts two named hook fields in its configuration"; the call
    is recorded with its arguments, and what the base class then does with
    them (creating and adding members) stays outside. *)
Definition Group_call (scene children config : value) : M unit :=
  log (GroupCall scene children config).

(** ** The class *)

(** The fields of a Physics Group. [children] is the member sequence kept by
    the base class, the one [getChildren()] returns. *)
Record group := mkGroup {
  world : value;
  physicsType : body_type;
  defaults : list (string * value);
  type : string;
  children : list value
}.

(** Modelled from the spec: the base Group is not part of this file; it
    "exposes getChildren() returning the current ordered member sequence". *)
Definition getChildren (this : group) : list value := children this.

(** The two assignments made to a configuration record in lines 64-65 and
    76-77. *)
Definition inject_hooks (config : value) : M unit :=
  put config "internalCreateCallback" (VFun createCallbackHandlerRef);;
  put config "internalRemoveCallback" (VFun removeCallbackHandlerRef).

(** The object literal of lines 53-56 and 85-88. *)
Definition hooks_literal : obj :=
  Obj PlainObject
    [ ("internalCreateCallback", VFun createCallbackHandlerRef);
      ("internalRemoveCallback", VFun removeCallbackHandlerRef) ] [].

(** Lines 51-89 of the constructor: from the arguments [children] and
    [config] to the pair that the rest of the constructor uses. *)
Definition PhysicsGroup_arguments (children config : value) : M (value * value) :=
  fun s =>
    if negb (truthy children) && negb (truthy config) then
      (config' ← new_object hooks_literal; mret (children, config')) s
    else if IsPlainObject (heap s) children then
      (inject_hooks children;; mret (VNull, children)) s
    else if isArray (heap s) children
            && IsPlainObject (heap s) (index (heap s) children 0) then
      (for_each inject_hooks (array_elems (heap s) children);;
       mret (VNull, index (heap s) children 0)) s
    else
      (config' ← new_object hooks_literal; mret (children, config')) s.

(** The object literal of lines 131-157. *)
Definition PhysicsGroup_defaults (h : list obj) (config : value)
  : list (string * value) :=
  [ ("setCollideWorldBounds", GetFastValue h config "collideWorldBounds" VUndefined);
    ("setBoundsRectangle", GetFastValue h config "customBoundsRectangle" VUndefined);
    ("setAccelerationX", GetFastValue h config "accelerationX" VUndefined);
    ("setAccelerationY", GetFastValue h config "accelerationY" VUndefined);
    ("setAllowDrag", GetFastValue h config "allowDrag" VUndefined);
    ("setAllowGravity", GetFastValue h config "allowGravity" VUndefined);
    ("setAllowRotation", GetFastValue h config "allowRotation" VUndefined);
    ("setBounceX", GetFastValue h config "bounceX" VUndefined);
    ("setBounceY", GetFastValue h config "bounceY" VUndefined);
    ("setDragX", GetFastValue h config "dragX" VUndefined);
    ("setDragY", GetFastValue h config "dragY" VUndefined);
    ("setEnable", GetFastValue h config "enable" VUndefined);
    ("setGravityX", GetFastValue h config "gravityX" VUndefined);
    ("setGravityY", GetFastValue h config "gravityY" VUndefined);
    ("setFrictionX", GetFastValue h config "frictionX" VUndefined);
    ("setFrictionY", GetFastValue h config "frictionY" VUndefined);
    ("setMaxVelocityX", GetFastValue h config "maxVelocityX" VUndefined);
    ("setMaxVelocityY", GetFastValue h config "maxVelocityY" VUndefined);
    ("setVelocityX", GetFastValue h config "velocityX" VUndefined);
    ("setVelocityY", GetFastValue h config "velocityY" VUndefined);
    ("setAngularVelocity", GetFastValue h config "angularVelocity" VUndefined);
    ("setAngularAcceleration", GetFastValue h config "angularAcceleration" VUndefined);
    ("setAngularDrag", GetFastValue h config "angularDrag" VUndefined);
    ("setMass", GetFastValue h config "mass" VUndefined);
    ("setImmovable", GetFastValue h config "immovable" VUndefined) ].

(** The constructor, [function PhysicsGroup (world, scene, children, config)].
    The member sequence belongs to the base class: it is empty when the base
    constructor is called, and filling it is the base constructor's work. *)
Definition PhysicsGroup (world scene children config : value) : M group :=
  '(children', config') ← PhysicsGroup_arguments children config;
  classType ← reading (fun h => GetFastValue h config' "classType" (VFun ArcadeSprite));
  put config' "classType" classType;;
  table ← reading (fun h => PhysicsGroup_defaults h config');
  Group_call scene children' config';;
  mret {| world := world;
          physicsType := DYNAMIC_BODY;
          defaults := table;
          type := "PhysicsGroup";
          children := [] |}.

(** The body of the loop [for (var key in this.defaults)] of lines 190-198,
    for the table [this.defaults]. *)
Definition visit_default (table : list (string * value)) (body : value)
  (key : string) : M unit :=
  let val := prop_get table key in
  if negb (is_undefined val) then Body_call body key val else mret tt.

(** [createCallbackHandler: function (child)]. *)
Definition createCallbackHandler (this : group) (child : value) : M value :=
  b ← get child "body";
  (if negb (truthy b)
   then World_call (world this) (World_enableBody child DYNAMIC_BODY)
   else mret tt);;
  body ← get child "body";
  for_each (visit_default (defaults this) body) (map fst (defaults this));;
  mret VUndefined.

(** [removeCallbackHandler: function (child)]. *)
Definition removeCallbackHandler (this : group) (child : value) : M value :=
  b ← get child "body";
  (if truthy b then World_call (world this) (World_disableBody child) else mret tt);;
  mret VUndefined.

Definition step_or_zero (step : option Z) : Z := default 0 step.

(** [setVelocity: function (x, y, step)]. *)
Definition setVelocity (this : group) (x y : Z) (step : option Z) : M group :=
  let step := step_or_zero step in
  let items := getChildren this in
  for_each (fun i =>
              item ← mret (default VUndefined (items !! i));
              body ← get item "body";
              velocity ← get body "velocity";
              Vector2_set velocity (x + Z.of_nat i * step) (y + Z.of_nat i * step))
           (seq 0 (length items));;
  mret this.

(** [setVelocityX: function (value, step)]. *)
Definition setVelocityX (this : group) (value : Z) (step : option Z) : M group :=
  let step := step_or_zero step in
  let items := getChildren this in
  for_each (fun i =>
              item ← mret (default VUndefined (items !! i));
              body ← get item "body";
              velocity ← get body "velocity";
              put velocity "x" (VNum (value + Z.of_nat i * step)))
           (seq 0 (length items));;
  mret this.

(** [setVelocityY: function (value, step)]. *)
Definition setVelocityY (this : group) (value : Z) (step : option Z) : M group :=
  let step := step_or_zero step in
  let items := getChildren this in
  for_each (fun i =>
              item ← mret (default VUndefined (items !! i));
              body ← get item "body";
              velocity ← get body "velocity";
              put velocity "y" (VNum (value + Z.of_nat i * step)))
           (seq 0 (length items));;
  mret this.

(** ** Observations used in the statements *)

(** The store after [l.k = v]. *)
Definition store (h : list obj) (l : loc) (k : string) (v : value) : list obj :=
  match h !! l with
  | Some o => <[l := set_props o (assign_prop k v (props o))]> h
  | None => h
  end.

Definition is_attach (e : event) : bool :=
  match e with EnableBody _ _ => true | _ => false end.

Definition is_detach (e : event) : bool :=
  match e with DisableBody _ => true | _ => false end.

(** The number of [world.enableBody] calls in a trace. *)
Definition attach_calls (tr : list event) : nat := length (List.filter is_attach tr).

(** The number of [world.disableBody] calls in a trace. *)
Definition detach_calls (tr : list event) : nat := length (List.filter is_detach tr).

Definition is_defined (kv : string * value) : bool := negb (is_undefined kv.2).

(** The entries of a defaults table that hold a value, in table order. *)
Definition defined_entries (table : list (string * value)) : list (string * value) :=
  List.filter is_defined table.

(** The setter calls that a defaults table asks for on the body [b]. *)
Definition setter_calls (b : loc) (table : list (string * value)) : list event :=
  map (fun kv => BodyCall b kv.1 kv.2) (defined_entries table).

(** The store after the setter [key] of the body [b] ran on [val]. *)
Definition setter_store (b : loc) (h : list obj) (kv : string * value) : list obj :=
  match Body_slot Body_setters kv.1 with
  | Some slot => store h b slot kv.2
  | None => h
  end.

(** A key that names a method of the Body. *)
Definition is_setter (key : string) : Prop := is_Some (Body_slot Body_setters key).

(** [k1] is invoked on a body, and later [k2] is. *)
Definition invoked_before (k1 k2 : string) (tr : list event) : Prop :=
  exists (i j : nat) b1 v1 b2 v2,
    tr !! i = Some (BodyCall b1 k1 v1) /\ tr !! j = Some (BodyCall b2 k2 v2) /\ (i < j)%nat.

(** A defaults table as the class expects it: an object (no key twice) whose
    entries that hold a value are named after methods of the Body. *)
Definition table_ok (table : list (string * value)) : Prop :=
  NoDup (map fst table) /\ forall kv, kv ∈ defined_entries table -> is_setter kv.1.

(** The store after [world.enableBody(child, ...)] gave the object [c] a
    body: a velocity vector and the body are allocated, in this order. *)
Definition attached (h : list obj) (c : loc) : list obj :=
  store ((h ++ [Obj InstanceObject [("x", VNum 0); ("y", VNum 0)] []])
           ++ [Obj InstanceObject
                 [("gameObject", VRef c); ("velocity", VRef (length h))] []])
        c "body" (VRef (S (length h))).

Definition is_body_call (e : event) : bool :=
  match e with BodyCall _ _ _ => true | _ => false end.

(** The Body setter calls of a trace, in order. *)
Definition body_calls (tr : list event) : list event := List.filter is_body_call tr.

(** The slot writes that the setter calls of some table entries amount to. *)
Definition slot_writes (entries : list (string * value)) : list (string * value) :=
  omap (fun kv => (fun slot => (slot, kv.2)) <$> Body_slot Body_setters kv.1) entries.

Definition store_pair (b : loc) (h : list obj) (w : string * value) : list obj :=
  store h b w.1 w.2.

(** The object [o] has no attached body: [!child.body]. *)
Definition no_body (o : obj) : Prop := truthy (prop_get (props o) "body") = false.

(** The object [o] carries the body [b], an object of the store [h]. *)
Definition has_body (h : list obj) (o : obj) (b : loc) : Prop :=
  prop_get (props o) "body" = VRef b /\ is_Some (h !! b).

(** The store after lines 64-65 (or 76-77) ran on the record [l]. *)
Definition hooked (h : list obj) (l : loc) : list obj :=
  store (store h l "internalCreateCallback" (VFun createCallbackHandlerRef))
        l "internalRemoveCallback" (VFun removeCallbackHandlerRef).

(** The record [l] holds the two hooks of this class. *)
Definition has_hooks (h : list obj) (l : loc) : Prop :=
  field h l "internalCreateCallback" = Some (VFun createCallbackHandlerRef) /\
  field h l "internalRemoveCallback" = Some (VFun removeCallbackHandlerRef).

(** A pre-built entity: a reference to an instance of a class. *)
Definition is_entity (h : list obj) (v : value) : Prop :=
  exists e oe, v = VRef e /\ h !! e = Some oe /\ kind oe = InstanceObject.

(** [children] is a configuration record, or an array of configuration
    records; [ls] are the records, in order. *)
Inductive supplies_records (h : list obj) : value -> list loc -> Prop :=
| one_record (l : loc) :
    IsPlainObject h (VRef l) = true ->
    supplies_records h (VRef l) [l]
| array_of_records (a : loc) (o : obj) (ls : list loc) :
    h !! a = Some o -> kind o = ArrayObject ->
    elems o = map VRef ls -> ls <> [] ->
    Forall (fun l => IsPlainObject h (VRef l) = true) ls ->
    supplies_records h (VRef a) ls.

(** An argument that was left out. *)
Definition absent (v : value) : Prop := v = VUndefined \/ v = VNull.

(** The construction-argument shapes that the class supports: nothing; a
    configuration record, as [children] or as [config]; an array of pre-built
    entities, with or without a [config]; an array of configuration records. *)
Inductive shape (h : list obj) : value -> value -> Prop :=
| shape_none (children config : value) :
    absent children -> absent config -> shape h children config
| shape_records (children config : value) (ls : list loc) :
    supplies_records h children ls -> shape h children config
| shape_config (l : loc) :
    IsPlainObject h (VRef l) = true -> shape h VUndefined (VRef l)
| shape_entities (a : loc) (o : obj) (config : value) :
    h !! a = Some o -> kind o = ArrayObject ->
    Forall (is_entity h) (elems o) -> shape h (VRef a) config.

(** The entries of the literal of lines 131-157: the setter each one is
    stored under, with the configuration field it is read from. *)
Definition defaults_fields : list (string * string) :=
  [ ("setCollideWorldBounds", "collideWorldBounds");
    ("setBoundsRectangle", "customBoundsRectangle");
    ("setAccelerationX", "accelerationX");
    ("setAccelerationY", "accelerationY");
    ("setAllowDrag", "allowDrag");
    ("setAllowGravity", "allowGravity");
    ("setAllowRotation", "allowRotation");
    ("setBounceX", "bounceX");
    ("setBounceY", "bounceY");
    ("setDragX", "dragX");
    ("setDragY", "dragY");
    ("setEnable", "enable");
    ("setGravityX", "gravityX");
    ("setGravityY", "gravityY");
    ("setFrictionX", "frictionX");
    ("setFrictionY", "frictionY");
    ("setMaxVelocityX", "maxVelocityX");
    ("setMaxVelocityY", "maxVelocityY");
    ("setVelocityX", "velocityX");
    ("setVelocityY", "velocityY");
    ("setAngularVelocity", "angularVelocity");
    ("setAngularAcceleration", "angularAcceleration");
    ("setAngularDrag", "angularDrag");
    ("setMass", "mass");
    ("setImmovable", "immovable") ].

(** The store at the call of the base constructor, when lines 51-89 left
    the store [h1] and resolved the configuration to the record [l]. *)
Definition classed (h1 : list obj) (l : loc) : list obj :=
  store h1 l "classType" (GetFastValue h1 (VRef l) "classType" (VFun ArcadeSprite)).

(** The cell of [item.body.velocity], for an item that carries a body with
    a velocity vector. *)
Definition velocity_vector (h : list obj) (item : value) : option loc :=
  match item with
  | VRef e =>
      match field h e "body" with
      | Some (VRef b) =>
          match field h b "velocity" with
          | Some (VRef v) => match h !! v with Some _ => Some v | None => None end
          | _ => None
          end
      | _ => None
      end
  | _ => None
  end.

(** The pair [(item.body.velocity.x, item.body.velocity.y)]. *)
Definition read_velocity (h : list obj) (item : value) : option (value * value) :=
  v ← velocity_vector h item;
  x ← field h v "x";
  y ← field h v "y";
  Some (x, y).

(** The store after a loop assigned to the vectors [vs], the first of them
    at index [i], when the assignment at index [j] to the vector [v] turns
    the store [h] into [eff h v j]. *)
Fixpoint sweep (eff : list obj -> loc -> nat -> list obj) (i : nat) (vs : list loc)
  (h : list obj) : list obj :=
  match vs with
  | [] => h
  | v :: vs' => sweep eff (S i) vs' (eff h v i)
  end.

(** What [velocity.set(x + i * step, y + i * step)] does to the store. *)
Definition set_both (x y step : Z) (h : list obj) (v : loc) (i : nat) : list obj :=
  store (store h v "x" (VNum (x + Z.of_nat i * step)))
        v "y" (VNum (y + Z.of_nat i * step)).

(** What [velocity.x = value + i * step] (or [velocity.y = ...]) does to the
    store. *)
Definition set_one (k : string) (value step : Z) (h : list obj) (v : loc) (i : nat)
  : list obj :=
  store h v k (VNum (value + Z.of_nat i * step)).

(** The creation hook gets past line 185 on the object [o]: either [o] has
    no body and [this.world] is a World, or [o] carries a body. *)
Definition hook_ready (this : group) (h : list obj) (o : obj) : Prop :=
  (no_body o /\ is_World h (world this) = true) \/ exists b, has_body h o b.

(** An integer that a double holds exactly. *)
Definition exact (n : Z) : Prop := -9007199254740992 <= n <= 9007199254740992.

(** The values [base + i * step] for the indices below [n], the products in
    them and the operands are integers that doubles hold exactly: on them the
    arithmetic of the code is the arithmetic of [Z]. *)
Definition exact_steps (base step : Z) (n : nat) : Prop :=
  exact base /\ exact step /\
  forall i : nat, (i < n)%nat ->
    exact (Z.of_nat i) /\ exact (Z.of_nat i * step) /\ exact (base + Z.of_nat i * step).

(** ** A sample scene *)

(** Cell 0 is a Game Object without a body, cell 1 a Game Object whose body
    is cell 2 with the velocity vector of cell 3, cell 4 a Rectangle, cells 5
    and 7 configuration records (the second one brings hooks and a class of
    its own), cell 6 an array of the two Game Objects and cell 8 an array of
    the two configuration records. *)
Definition sample_heap : list obj :=
  [ Obj InstanceObject [("name", VStr "ship")] [];
    Obj InstanceObject [("name", VStr "rock"); ("body", VRef 2)] [];
    Obj InstanceObject [("gameObject", VRef 1); ("velocity", VRef 3)] [];
    Obj InstanceObject [("x", VNum 0); ("y", VNum 0)] [];
    Obj InstanceObject [("width", VNum 800); ("height", VNum 600)] [];
    Obj PlainObject [ ("collideWorldBounds", VBool true);
                      ("customBoundsRectangle", VRef 4);
                      ("velocityX", VNum 5) ] [];
    Obj ArrayObject [] [VRef 0; VRef 1];
    Obj PlainObject [ ("classType", VFun (OtherFunction 1));
                      ("internalCreateCallback", VFun (OtherFunction 2));
                      ("mass", VNum 3) ] [];
    Obj ArrayObject [] [VRef 5; VRef 7] ].

Definition sample_state : state := {| heap := sample_heap; trace := [] |}.

(** A group whose defaults come from the configuration record of cell 5. *)
Definition sample_group : group :=
  {| world := VNull;
     physicsType := DYNAMIC_BODY;
     defaults := PhysicsGroup_defaults sample_heap (VRef 5);
     type := "PhysicsGroup";
     children := [] |}.

(** The sample scene with a physics World in cell 9, and groups of that
    World: one with the defaults of the configuration record of cell 5, one
    without defaults. *)
Definition world_heap : list obj := sample_heap ++ [Obj WorldObject [] []].

Definition world_state : state := {| heap := world_heap; trace := [] |}.

Definition world_group : group :=
  {| world := VRef 9;
     physicsType := DYNAMIC_BODY;
     defaults := PhysicsGroup_defaults sample_heap (VRef 5);
     type := "PhysicsGroup";
     children := [] |}.

Definition bare_group : group :=
  {| world := VRef 9;
     physicsType := DYNAMIC_BODY;
     defaults := [];
     type := "PhysicsGroup";
     children := [] |}.

(** Three Game Objects (cells 0-2) with their bodies (cells 3-5) and the
    velocity vectors of the bodies (cells 6-8), and the group of the three. *)
Definition fleet_heap : list obj :=
  [ Obj InstanceObject [("body", VRef 3)] [];
    Obj InstanceObject [("body", VRef 4)] [];
    Obj InstanceObject [("body", VRef 5)] [];
    Obj InstanceObject [("gameObject", VRef 0); ("velocity", VRef 6); ("mass", VNum 1)] [];
    Obj InstanceObject [("gameObject", VRef 1); ("velocity", VRef 7); ("mass", VNum 1)] [];
    Obj InstanceObject [("gameObject", VRef 2); ("velocity", VRef 8); ("mass", VNum 1)] [];
    Obj InstanceObject [("x", VNum 1); ("y", VNum 2)] [];
    Obj InstanceObject [("x", VNum 3); ("y", VNum 4)] [];
    Obj InstanceObject [("x", VNum 5); ("y", VNum 6)] [] ].

Definition fleet_state : state := {| heap := fleet_heap; trace := [] |}.

Definition fleet : group :=
  {| world := VNull;
     physicsType := DYNAMIC_BODY;
     defaults := [];
     type := "PhysicsGroup";
     children := [VRef 0; VRef 1; VRef 2] |}.

(** ** Property lists and the store *)

Section PropertyLists.

Implicit Types (k : string) (v : value) (ps : list (string * value)).

Lemma lookup_prop_assign_eq k v ps :
  lookup_prop k (assign_prop k v ps) = Some v.
Proof.
  induction ps as [|[k' v'] ps IH]; simpl.
  - by rewrite String.eqb_refl.
  - destruct (String.eqb k k') eqn:E; simpl.
    + by rewrite String.eqb_refl.
    + by rewrite E.
Qed.

Lemma lookup_prop_assign_ne k k' v ps :
  k <> k' -> lookup_prop k' (assign_prop k v ps) = lookup_prop k' ps.
Proof.
  intros Hne. induction ps as [|[k0 v0] ps IH]; simpl.
  - apply String.eqb_neq in Hne. rewrite String.eqb_sym in Hne. by rewrite Hne.
  - destruct (String.eqb k k0) eqn:E; simpl.
    + apply String.eqb_eq in E. subst k0.
      apply String.eqb_neq in Hne. rewrite String.eqb_sym in Hne. by rewrite Hne.
    + by rewrite IH.
Qed.

(** Writing the value a property already has changes nothing. *)
Lemma assign_prop_id k v ps :
  lookup_prop k ps = Some v -> assign_prop k v ps = ps.
Proof.
  induction ps as [|[k' v'] ps IH]; simpl; [done|].
  destruct (String.eqb k k') eqn:E.
  - apply String.eqb_eq in E. by intros [= ->]; subst.
  - intros H. by rewrite IH.
Qed.

(** In an object, where keys are not repeated, each entry is what its key
    looks up. *)
Lemma lookup_prop_NoDup k v ps :
  NoDup (map fst ps) -> (k, v) ∈ ps -> lookup_prop k ps = Some v.
Proof.
  induction ps as [|[k' v'] ps IH]; simpl; intros Hnd Hin.
  - by apply elem_of_nil in Hin.
  - apply NoDup_cons in Hnd as [Hk Hnd].
    apply elem_of_cons in Hin as [[= -> ->]|Hin].
    + by rewrite String.eqb_refl.
    + destruct (String.eqb k k') eqn:E.
      * apply String.eqb_eq in E. subst k'. exfalso. apply Hk.
        apply list_elem_of_fmap. by exists (k, v).
      * by apply IH.
Qed.

End PropertyLists.

Section Store.

Implicit Types (h : list obj) (l : loc) (k : string) (v : value).

Lemma length_store h l k v : length (store h l k v) = length h.
Proof. unfold store. destruct (h !! l); [apply length_insert|done]. Qed.

Lemma field_store h l k v l' k' :
  is_Some (h !! l) ->
  field (store h l k v) l' k' =
    if decide (l = l' /\ k = k') then Some v else field h l' k'.
Proof.
  intros [o Ho]. unfold store, field. rewrite Ho.
  destruct (decide (l = l')) as [<-|Hl].
  - rewrite list_lookup_insert_eq; [|by eapply lookup_lt_Some].
    rewrite Ho. simpl.
    destruct (decide (k = k')) as [<-|Hk].
    + rewrite decide_True by done. apply lookup_prop_assign_eq.
    + rewrite decide_False by tauto. by apply lookup_prop_assign_ne.
  - rewrite list_lookup_insert_ne by done.
    by rewrite decide_False by tauto.
Qed.

Lemma store_is_Some h l k v l' : is_Some (store h l k v !! l') <-> is_Some (h !! l').
Proof. rewrite !lookup_lt_is_Some. by rewrite length_store. Qed.

Lemma store_id h l k v : field h l k = Some v -> store h l k v = h.
Proof.
  unfold field, store. destruct (h !! l) as [o|] eqn:Ho; simpl; [|done].
  intros H. rewrite (assign_prop_id _ _ _ H).
  apply list_insert_id. rewrite Ho. by destruct o.
Qed.

(** Cells other than [l] are not touched. *)
Lemma store_other h l k v l' : l <> l' -> store h l k v !! l' = h !! l'.
Proof.
  intros Hne. unfold store. destruct (h !! l); [|done].
  by apply list_lookup_insert_ne.
Qed.

End Store.

(** ** Running computations *)

Section Running.

Lemma run_bind {A B : Type} (m : M A) (f : A -> M B) (s : state) :
  (m ≫= f) s = match m s with Some (a, s') => f a s' | None => None end.
Proof. reflexivity. Qed.

Lemma run_ret {A : Type} (a : A) (s : state) : (mret a : M A) s = Some (a, s).
Proof. reflexivity. Qed.

(** A method call on a World goes through. *)
Lemma run_World_call (w : value) (method : M unit) (s : state) :
  is_World (heap s) w = true -> World_call w method s = method s.
Proof. intros H. unfold World_call. by rewrite H. Qed.

Lemma run_get (l : loc) (k : string) (o : obj) (s : state) :
  heap s !! l = Some o -> get (VRef l) k s = Some (prop_get (props o) k, s).
Proof. intros H. unfold get. by rewrite H. Qed.

Lemma run_put (l : loc) (k : string) (x : value) (s : state) :
  is_Some (heap s !! l) ->
  put (VRef l) k x s = Some (tt, {| heap := store (heap s) l k x; trace := trace s |}).
Proof. intros [o H]. unfold put, store. by rewrite H. Qed.

End Running.

Section Traces.

Lemma defined_entries_cons (k : string) (v : value) (l : list (string * value)) :
  defined_entries ((k, v) :: l) =
    if is_undefined v then defined_entries l else (k, v) :: defined_entries l.
Proof. unfold defined_entries. simpl. unfold is_defined. simpl. by destruct (is_undefined v). Qed.

Lemma attach_calls_app (t1 t2 : list event) :
  attach_calls (t1 ++ t2) = (attach_calls t1 + attach_calls t2)%nat.
Proof. unfold attach_calls. by rewrite List.filter_app, length_app. Qed.

Lemma detach_calls_app (t1 t2 : list event) :
  detach_calls (t1 ++ t2) = (detach_calls t1 + detach_calls t2)%nat.
Proof. unfold detach_calls. by rewrite List.filter_app, length_app. Qed.

Lemma attach_calls_setter_calls (b : loc) (table : list (string * value)) :
  attach_calls (setter_calls b table) = 0%nat.
Proof.
  unfold setter_calls. induction (defined_entries table) as [|kv l IH]; [done|].
  exact IH.
Qed.

End Traces.

(** ** The creation hook *)

Section CreationHook.

Variable table : list (string * value).

(** The loop calls the setters of the entries that hold a value, one after
    the other, and each call overwrites its slot of the body. *)
Lemma run_defaults_loop (entries : list (string * value)) (b : loc) (s : state) :
  (forall k v, (k, v) ∈ entries -> prop_get table k = v) ->
  (forall kv, kv ∈ defined_entries entries -> is_setter kv.1) ->
  is_Some (heap s !! b) ->
  for_each (visit_default table (VRef b)) (map fst entries) s =
    Some (tt, {| heap := foldl (setter_store b) (heap s) (defined_entries entries);
                 trace := trace s ++ setter_calls b entries |}).
Proof.
  revert s. induction entries as [|[k v] entries IH]; intros s Hget Hset Hb.
  - simpl. unfold setter_calls. simpl. rewrite app_nil_r. by destruct s.
  - cbn [map fst for_each]. rewrite run_bind.
    assert (Hv : prop_get table k = v) by (apply Hget; left).
    unfold visit_default at 1. cbv zeta. rewrite Hv.
    unfold setter_calls in *. rewrite defined_entries_cons in *.
    destruct (is_undefined v) eqn:Hu; cbn [negb].
    + rewrite run_ret. apply IH; [|done..]. intros k' v' H. apply Hget. by right.
    + destruct (Hset (k, v)) as [slot Hslot]; [left|]. cbn [fst] in Hslot.
      unfold Body_call. rewrite Hslot, run_bind. cbn [log].
      rewrite run_put by done. cbn [heap trace].
      rewrite IH; cbn [heap trace].
      * cbn [map foldl fst snd].
        replace (setter_store b (heap s) (k, v)) with (store (heap s) b slot v)
          by (unfold setter_store; cbn [fst snd]; by rewrite Hslot).
        by rewrite <- app_assoc.
      * intros k' v' H. apply Hget. by right.
      * intros kv H. apply Hset. by right.
      * by apply store_is_Some.
Qed.

End CreationHook.

Section CreationHookRuns.

Variables (this : group) (c : loc) (o : obj) (s : state).
Hypothesis Hc : heap s !! c = Some o.
Hypothesis Hok : table_ok (defaults this).

Lemma run_enableBody (ty : body_type) :
  World_enableBody (VRef c) ty s =
    Some (tt, {| heap := attached (heap s) c;
                 trace := trace s ++ [EnableBody (VRef c) ty] |}).
Proof.
  unfold World_enableBody.
  repeat (rewrite run_bind; cbn [log new_object heap trace]).
  rewrite run_put; cbn [heap trace].
  - unfold attached. by rewrite length_app, Nat.add_1_r.
  - exists o. rewrite <- app_assoc. by apply lookup_app_l_Some.
Qed.

Lemma attached_body : field (attached (heap s) c) c "body" = Some (VRef (S (length (heap s)))).
Proof.
  unfold attached. rewrite field_store.
  - by rewrite decide_True.
  - exists o. rewrite <- app_assoc. by apply lookup_app_l_Some.
Qed.

Lemma attached_length : length (attached (heap s) c) = S (S (length (heap s))).
Proof. unfold attached. rewrite length_store, !length_app. simpl. lia. Qed.

(** The hook on a child without a body, for a group of a World. *)
Lemma run_createCallbackHandler_fresh :
  is_World (heap s) (world this) = true ->
  truthy (prop_get (props o) "body") = false ->
  createCallbackHandler this (VRef c) s =
    Some (VUndefined,
          {| heap := foldl (setter_store (S (length (heap s))))
                           (attached (heap s) c) (defined_entries (defaults this));
             trace := trace s ++ EnableBody (VRef c) DYNAMIC_BODY
                                :: setter_calls (S (length (heap s))) (defaults this) |}).
Proof.
  intros Hworld Hfalsy. destruct Hok as [Hnd Hset].
  unfold createCallbackHandler. rewrite run_bind, (run_get _ _ _ _ Hc).
  rewrite Hfalsy. cbn [negb].
  rewrite run_bind, (run_World_call _ _ _ Hworld), run_enableBody, run_bind.
  pose proof attached_body as Hb. unfold field in Hb.
  destruct (attached (heap s) c !! c) as [o'|] eqn:Ho'; [|done]. simpl in Hb.
  erewrite run_get by (cbn [heap]; exact Ho').
  replace (prop_get (props o') "body") with (VRef (S (length (heap s))))
    by (unfold prop_get; by rewrite Hb).
  rewrite run_bind.
  erewrite (run_defaults_loop (defaults this) (defaults this)).
  - rewrite run_ret. cbn [heap trace]. by rewrite <- app_assoc.
  - intros k v Hin. unfold prop_get. by rewrite (lookup_prop_NoDup _ _ _ Hnd Hin).
  - exact Hset.
  - cbn [heap]. apply lookup_lt_is_Some. rewrite attached_length. lia.
Qed.

(** The hook on a child that carries the body [b]. *)
Lemma run_createCallbackHandler_bodied (b : loc) :
  prop_get (props o) "body" = VRef b ->
  is_Some (heap s !! b) ->
  createCallbackHandler this (VRef c) s =
    Some (VUndefined,
          {| heap := foldl (setter_store b) (heap s) (defined_entries (defaults this));
             trace := trace s ++ setter_calls b (defaults this) |}).
Proof.
  intros Hbody Hb. destruct Hok as [Hnd Hset].
  unfold createCallbackHandler. rewrite run_bind, (run_get _ _ _ _ Hc).
  rewrite Hbody. cbn [truthy negb]. rewrite run_bind, run_ret, run_bind.
  rewrite (run_get _ _ _ _ Hc), Hbody, run_bind.
  erewrite (run_defaults_loop (defaults this) (defaults this)); [done|..|done].
  - intros k v Hin. unfold prop_get. by rewrite (lookup_prop_NoDup _ _ _ Hnd Hin).
  - exact Hset.
Qed.

End CreationHookRuns.

(** ** Setter calls as slot writes *)

Section SlotWrites.

Implicit Types (h : list obj) (b l : loc) (ws entries : list (string * value)).

Lemma Body_slot_elem_of (ms : list (string * string)) (key slot : string) :
  Body_slot ms key = Some slot -> (key, slot) ∈ ms.
Proof.
  induction ms as [|[m sl] ms IH]; simpl; [done|].
  destruct (String.eqb key m) eqn:E.
  - apply String.eqb_eq in E. intros [= ->]. subst. left.
  - intros H. right. by apply IH.
Qed.

Lemma Body_setters_slots_NoDup : NoDup (map snd Body_setters).
Proof. apply (bool_decide_unpack _). by vm_compute. Qed.

(** Two setters of the Body never share a slot. *)
Lemma Body_slot_inj (k1 k2 slot : string) :
  Body_slot Body_setters k1 = Some slot ->
  Body_slot Body_setters k2 = Some slot -> k1 = k2.
Proof.
  intros H1%Body_slot_elem_of H2%Body_slot_elem_of.
  pose proof Body_setters_slots_NoDup as Hnd. revert H1 H2 Hnd.
  generalize Body_setters as ms.
  induction ms as [|[m sl] ms IH]; intros H1 H2 Hnd.
  - by apply elem_of_nil in H1.
  - simpl in Hnd. apply NoDup_cons in Hnd as [Hnotin Hnd].
    apply elem_of_cons in H1 as [E1|H1];
      apply elem_of_cons in H2 as [E2|H2]; simplify_eq; try done.
    + exfalso. apply Hnotin. apply list_elem_of_fmap. by exists (k2, sl).
    + exfalso. apply Hnotin. apply list_elem_of_fmap. by exists (k1, sl).
    + by apply IH.
Qed.

(** No setter writes the slots that the class itself reads. *)
Lemma Body_slot_not_read (key slot : string) :
  Body_slot Body_setters key = Some slot ->
  slot <> "body" /\ slot <> "velocity" /\ slot <> "x" /\ slot <> "y".
Proof.
  intros H%Body_slot_elem_of.
  assert (Hall : Forall (fun p : string * string =>
                  p.2 <> "body" /\ p.2 <> "velocity" /\ p.2 <> "x" /\ p.2 <> "y")
                Body_setters).
  { unfold Body_setters. repeat (constructor; [by repeat split|]). constructor. }
  rewrite Forall_forall in Hall. exact (Hall _ H).
Qed.

Lemma slot_writes_cons (kv : string * value) entries :
  slot_writes (kv :: entries) =
    match Body_slot Body_setters kv.1 with
    | Some slot => (slot, kv.2) :: slot_writes entries
    | None => slot_writes entries
    end.
Proof.
  unfold slot_writes. cbn [omap list_omap].
  by destruct (Body_slot Body_setters kv.1).
Qed.

Lemma setter_store_writes h b entries :
  foldl (setter_store b) h entries = foldl (store_pair b) h (slot_writes entries).
Proof.
  revert h. induction entries as [|kv entries IH]; intros h; [done|].
  rewrite slot_writes_cons. cbn [foldl]. unfold setter_store at 2.
  destruct (Body_slot Body_setters kv.1) as [slot|]; cbn [foldl]; apply IH.
Qed.

Lemma slot_writes_elem_of entries slot v :
  (slot, v) ∈ slot_writes entries ->
  exists k, (k, v) ∈ entries /\ Body_slot Body_setters k = Some slot.
Proof.
  unfold slot_writes. rewrite list_elem_of_omap. intros ([k v'] & Hin & Heq).
  cbn [fst snd] in Heq. destruct (Body_slot Body_setters k) as [sl|] eqn:E; [|done].
  cbn in Heq. injection Heq as -> ->. by exists k.
Qed.

Lemma slot_writes_NoDup entries :
  NoDup (map fst entries) -> NoDup (map fst (slot_writes entries)).
Proof.
  induction entries as [|[k v] entries IH]; intros Hnd; [constructor|].
  cbn [map fst] in Hnd. apply NoDup_cons in Hnd as [Hk Hnd].
  rewrite slot_writes_cons. cbn [fst snd].
  destruct (Body_slot Body_setters k) as [slot|] eqn:E; [|by apply IH].
  cbn [map fst]. apply NoDup_cons. split; [|by apply IH].
  intros Hin. apply list_elem_of_fmap in Hin as ([sl v'] & Heq & Hin). simpl in Heq. subst sl.
  apply slot_writes_elem_of in Hin as (k' & Hin & Hk').
  rewrite (Body_slot_inj _ _ _ E Hk') in Hk. apply Hk.
  apply list_elem_of_fmap. by exists (k', v').
Qed.

Lemma foldl_store_is_Some b ws h l :
  is_Some (foldl (store_pair b) h ws !! l) <-> is_Some (h !! l).
Proof.
  revert h. induction ws as [|w ws IH]; intros h; [done|].
  simpl. rewrite IH. apply store_is_Some.
Qed.

(** A property that no write addresses keeps its value. *)
Lemma foldl_store_other b ws h l k :
  is_Some (h !! b) ->
  l <> b \/ k ∉ map fst ws ->
  field (foldl (store_pair b) h ws) l k = field h l k.
Proof.
  revert h. induction ws as [|[k' v'] ws IH]; intros h Hb Hor; [done|].
  simpl. rewrite IH.
  - unfold store_pair. simpl. rewrite field_store by done.
    apply decide_False. intros [-> ->]. destruct Hor as [?|Hk]; [done|].
    apply Hk. simpl. left.
  - by apply store_is_Some.
  - destruct Hor as [?|Hk]; [by left|right]. intros Hin. apply Hk. simpl. by right.
Qed.

(** After the writes, each written slot holds the value written to it. *)
Lemma foldl_store_written b ws h k v :
  is_Some (h !! b) -> NoDup (map fst ws) -> (k, v) ∈ ws ->
  field (foldl (store_pair b) h ws) b k = Some v.
Proof.
  revert h. induction ws as [|[k' v'] ws IH]; intros h Hb Hnd Hin.
  - by apply elem_of_nil in Hin.
  - simpl in Hnd. apply NoDup_cons in Hnd as [Hk Hnd]. simpl.
    apply elem_of_cons in Hin as [[= -> ->]|Hin].
    + rewrite foldl_store_other; [|by apply store_is_Some|by right].
      unfold store_pair. simpl. rewrite field_store by done. by rewrite decide_True.
    + apply IH; [by apply store_is_Some|done..].
Qed.

(** Writes of the values already held leave the store as it is. *)
Lemma foldl_store_id b ws h :
  (forall k v, (k, v) ∈ ws -> field h b k = Some v) ->
  foldl (store_pair b) h ws = h.
Proof.
  induction ws as [|[k v] ws IH]; intros Hall; [done|].
  simpl. unfold store_pair at 2. simpl. rewrite store_id.
  - apply IH. intros k' v' H. apply Hall. by right.
  - apply Hall. left.
Qed.

(** Applying the same setters a second time changes nothing. *)
Lemma setter_store_twice b entries h :
  is_Some (h !! b) -> NoDup (map fst entries) ->
  foldl (setter_store b) (foldl (setter_store b) h entries) entries
  = foldl (setter_store b) h entries.
Proof.
  intros Hb Hnd. rewrite !setter_store_writes.
  apply foldl_store_id. intros k v Hin.
  apply foldl_store_written; [done|by apply slot_writes_NoDup|done].
Qed.

(** The setters leave the properties that the class reads alone. *)
Lemma setter_store_read b entries h l k :
  is_Some (h !! b) -> k = "body" \/ k = "velocity" \/ k = "x" \/ k = "y" ->
  field (foldl (setter_store b) h entries) l k = field h l k.
Proof.
  intros Hb Hk. rewrite setter_store_writes. apply foldl_store_other; [done|].
  right. intros Hin. apply list_elem_of_fmap in Hin as ([sl v] & Heq & Hin).
  simpl in Heq. subst sl. apply slot_writes_elem_of in Hin as (key & _ & Hslot).
  apply Body_slot_not_read in Hslot as (? & ? & ? & ?).
  destruct Hk as [->|[->|[->| ->]]]; done.
Qed.

Lemma defined_entries_NoDup (table : list (string * value)) :
  NoDup (map fst table) -> NoDup (map fst (defined_entries table)).
Proof.
  induction table as [|[k v] table IH]; intros Hnd; [constructor|].
  cbn [map fst] in Hnd. apply NoDup_cons in Hnd as [Hk Hnd].
  rewrite defined_entries_cons.
  destruct (is_undefined v); [by apply IH|]. cbn [map fst]. apply NoDup_cons.
  split; [|by apply IH]. intros Hin. apply Hk.
  apply list_elem_of_fmap in Hin as (kv & -> & Hin). apply list_elem_of_fmap.
  exists kv. split; [done|]. apply list_elem_of_In. apply list_elem_of_In in Hin.
  unfold defined_entries in Hin. apply List.filter_In in Hin. tauto.
Qed.

End SlotWrites.

(** ** The defaults table of the constructor *)

Section ConstructorTable.

Variables (h : list obj) (config : value).

Lemma PhysicsGroup_defaults_keys :
  map fst (PhysicsGroup_defaults h config) = map fst Body_setters.
Proof. reflexivity. Qed.

(** The first two entries of the table. *)
Lemma PhysicsGroup_defaults_head :
  exists rest,
    PhysicsGroup_defaults h config
    = ("setCollideWorldBounds", GetFastValue h config "collideWorldBounds" VUndefined)
      :: ("setBoundsRectangle", GetFastValue h config "customBoundsRectangle" VUndefined)
      :: rest.
Proof. by eexists. Qed.

Lemma defined_entries_keys (table : list (string * value)) (kv : string * value) :
  kv ∈ defined_entries table -> kv.1 ∈ map fst table.
Proof.
  intros Hin. apply list_elem_of_In, List.filter_In in Hin as [Hin _].
  apply list_elem_of_In. by apply (List.in_map fst).
Qed.

Lemma Body_setters_are_setters (key : string) :
  key ∈ map fst Body_setters -> is_setter key.
Proof.
  intros Hin. unfold is_setter.
  repeat (apply elem_of_cons in Hin as [->|Hin]; [by eexists|]).
  by apply elem_of_nil in Hin.
Qed.

Lemma PhysicsGroup_defaults_ok : table_ok (PhysicsGroup_defaults h config).
Proof.
  split.
  - rewrite PhysicsGroup_defaults_keys. apply (bool_decide_unpack _). by vm_compute.
  - intros kv Hin. apply Body_setters_are_setters.
    rewrite <- PhysicsGroup_defaults_keys. by apply defined_entries_keys.
Qed.

End ConstructorTable.

Section TraceFilters.

Lemma body_calls_app (t1 t2 : list event) :
  body_calls (t1 ++ t2) = body_calls t1 ++ body_calls t2.
Proof. apply List.filter_app. Qed.

Lemma body_calls_setter_calls (b : loc) (table : list (string * value)) :
  body_calls (setter_calls b table) = setter_calls b table.
Proof.
  unfold setter_calls. induction (defined_entries table) as [|kv l IH]; [done|].
  cbn [map]. unfold body_calls in *. cbn [List.filter is_body_call]. by rewrite IH.
Qed.

End TraceFilters.

(** ** The hooks: what a call does *)

(** C5: the removal hook on an entity with an attached body makes exactly
    one detach call [world.disableBody(entity)], [this.world] being a World;
    on an entity without a body it makes none and changes nothing; it
    returns no value. *)
Theorem removeCallbackHandler_detaches_bodied_child
  (this : group) (c : loc) (o : obj) (s : state) :
  heap s !! c = Some o ->
  (truthy (prop_get (props o) "body") = true -> is_World (heap s) (world this) = true) ->
  exists s',
    removeCallbackHandler this (VRef c) s = Some (VUndefined, s') /\
    heap s' = heap s /\
    (truthy (prop_get (props o) "body") = true ->
       trace s' = trace s ++ [DisableBody (VRef c)] /\
       detach_calls (trace s') = S (detach_calls (trace s))) /\
    (truthy (prop_get (props o) "body") = false -> s' = s).
Proof.
  intros Hc Hworld. unfold removeCallbackHandler.
  rewrite run_bind, (run_get _ _ _ _ Hc), run_bind.
  destruct (truthy (prop_get (props o) "body")) eqn:Hb.
  - rewrite (run_World_call _ _ _ (Hworld eq_refl)).
    unfold World_disableBody. cbn [log]. rewrite run_ret.
    eexists. split; [reflexivity|]. cbn [heap trace].
    split; [done|]. split; [|done]. intros _. split; [done|].
    rewrite detach_calls_app. unfold detach_calls at 2. simpl. lia.
  - rewrite !run_ret. exists s. by repeat split.
Qed.

Lemma removeCallbackHandler_detaches_bodied_child_witness :
  world_heap !! 1%nat = Some (Obj InstanceObject [("name", VStr "rock"); ("body", VRef 2)] []) /\
  is_World world_heap (world world_group) = true /\
  exists s',
    removeCallbackHandler world_group (VRef 1) world_state = Some (VUndefined, s') /\
    trace s' = [DisableBody (VRef 1)].
Proof.
  split; [reflexivity|]. split; [reflexivity|].
  destruct (removeCallbackHandler_detaches_bodied_child world_group 1 _ world_state
              (eq_refl : heap world_state !! 1%nat = Some _) (fun _ => eq_refl))
    as (s' & Hrun & _ & Hcall & _).
  exists s'. split; [exact Hrun|]. by destruct (Hcall eq_refl) as [-> _].
Defined.

(** C1: the creation hook on an entity without a body makes exactly one
    attach call [world.enableBody(entity, DYNAMIC_BODY)], [this.world] being
    a World, and then invokes every setter of the defaults table that holds
    a value on the new body; on an entity that already has a body it makes
    no attach call and still invokes every such setter. *)
Theorem createCallbackHandler_attaches_once_and_applies_defaults
  (this : group) (c : loc) (o : obj) (s : state) :
  heap s !! c = Some o ->
  table_ok (defaults this) ->
  (no_body o -> is_World (heap s) (world this) = true ->
     exists s' b,
       createCallbackHandler this (VRef c) s = Some (VUndefined, s') /\
       field (heap s') c "body" = Some (VRef b) /\
       trace s' = trace s ++ EnableBody (VRef c) DYNAMIC_BODY
                          :: setter_calls b (defaults this) /\
       attach_calls (trace s') = S (attach_calls (trace s)))
  /\
  (forall b, has_body (heap s) o b ->
     exists s',
       createCallbackHandler this (VRef c) s = Some (VUndefined, s') /\
       field (heap s') c "body" = Some (VRef b) /\
       trace s' = trace s ++ setter_calls b (defaults this) /\
       attach_calls (trace s') = attach_calls (trace s)).
Proof.
  intros Hc Hok. split.
  - intros Hno Hworld. eexists _, (S (length (heap s))).
    split; [by apply (run_createCallbackHandler_fresh this c o s)|].
    cbn [heap trace]. split; [|split; [done|]].
    + rewrite setter_store_read; [by eapply attached_body|..|by left].
      apply lookup_lt_is_Some. erewrite attached_length by done. lia.
    + rewrite attach_calls_app. change (EnableBody ?a ?t :: ?l) with ([EnableBody a t] ++ l).
      rewrite attach_calls_app, attach_calls_setter_calls. unfold attach_calls at 2.
      simpl. lia.
  - intros b [Hbody Hb]. eexists.
    split; [by apply (run_createCallbackHandler_bodied this c o s)|].
    cbn [heap trace]. split; [|split; [done|]].
    + rewrite setter_store_read; [|done|by left].
      unfold field. rewrite Hc. simpl. unfold prop_get in Hbody.
      by destruct (lookup_prop "body" (props o)); simplify_eq/=.
    + rewrite attach_calls_app, attach_calls_setter_calls. lia.
Qed.

Lemma createCallbackHandler_attaches_once_and_applies_defaults_witness :
  is_World world_heap (world world_group) = true /\
  exists s',
    createCallbackHandler world_group (VRef 0) world_state = Some (VUndefined, s') /\
    trace s' = [ EnableBody (VRef 0) DYNAMIC_BODY;
                 BodyCall 11 "setCollideWorldBounds" (VBool true);
                 BodyCall 11 "setBoundsRectangle" (VRef 4);
                 BodyCall 11 "setVelocityX" (VNum 5) ].
Proof.
  split; [reflexivity|].
  destruct (createCallbackHandler_attaches_once_and_applies_defaults
              world_group 0 _ world_state
              (eq_refl : heap world_state !! 0%nat = Some _)
              (PhysicsGroup_defaults_ok sample_heap (VRef 5)))
    as [Hfresh _].
  destruct (Hfresh eq_refl eq_refl) as (s' & b & Hrun & Hbody & Htrace & _).
  exists s'. split; [exact Hrun|].
  assert (b = 11%nat) as ->.
  { vm_compute in Hrun. injection Hrun as <-. vm_compute in Hbody. by injection Hbody as <-. }
  exact Htrace.
Defined.

(** The hook on a child that has no body, for a group of a World, or that
    carries an allocated body: it returns, the child then has a body, and
    the calls made are the attach call, if any, followed by the setter calls
    of the table. *)
Lemma createCallbackHandler_attaches_or_not
  (this : group) (c : loc) (o : obj) (s : state) :
  heap s !! c = Some o ->
  table_ok (defaults this) ->
  hook_ready this (heap s) o ->
  exists s' b,
    createCallbackHandler this (VRef c) s = Some (VUndefined, s') /\
    field (heap s') c "body" = Some (VRef b) /\
    trace s' = (trace s ++ (if truthy (prop_get (props o) "body") then []
                            else [EnableBody (VRef c) DYNAMIC_BODY]))
               ++ setter_calls b (defaults this).
Proof.
  intros Hc Hok [[Hno Hworld]|[b [Hbody Hb]]].
  - eexists _, (S (length (heap s))).
    split; [by apply (run_createCallbackHandler_fresh this c o s)|].
    cbn [heap trace]. split.
    + rewrite setter_store_read; [by eapply attached_body|..|by left].
      apply lookup_lt_is_Some. erewrite attached_length by done. lia.
    + unfold no_body in Hno. rewrite Hno. by rewrite <- app_assoc.
  - eexists _, b.
    split; [by apply (run_createCallbackHandler_bodied this c o s)|].
    cbn [heap trace]. split.
    + rewrite setter_store_read; [|done|by left].
      unfold field. rewrite Hc. simpl. unfold prop_get in Hbody.
      by destruct (lookup_prop "body" (props o)); simplify_eq/=.
    + rewrite Hbody. cbn [truthy]. by rewrite app_nil_r.
Qed.

(** C6, as the code has it: during the creation hook (on a child with a
    body, or on a child without one when [this.world] is a World) the Body
    setters are invoked for exactly the entries of the defaults table that
    hold a value, in the order of the table; in the table that the
    constructor builds [setCollideWorldBounds] comes first and
    [setBoundsRectangle] second, so the bounds rectangle is set after the
    collide-world-bounds flag. *)
Theorem createCallbackHandler_calls_setters_in_table_order
  (this : group) (c : loc) (o : obj) (s : state) :
  heap s !! c = Some o ->
  table_ok (defaults this) ->
  hook_ready this (heap s) o ->
  exists s' b,
    createCallbackHandler this (VRef c) s = Some (VUndefined, s') /\
    field (heap s') c "body" = Some (VRef b) /\
    body_calls (trace s') =
      body_calls (trace s)
      ++ map (fun kv => BodyCall b kv.1 kv.2)
             (List.filter (fun kv => negb (is_undefined kv.2)) (defaults this)) /\
    (forall h config v1 v2,
       defaults this = PhysicsGroup_defaults h config ->
       GetFastValue h config "collideWorldBounds" VUndefined = v1 -> v1 <> VUndefined ->
       GetFastValue h config "customBoundsRectangle" VUndefined = v2 -> v2 <> VUndefined ->
       exists rest,
         body_calls (trace s') =
           body_calls (trace s)
           ++ BodyCall b "setCollideWorldBounds" v1
              :: BodyCall b "setBoundsRectangle" v2 :: rest).
Proof.
  intros Hc Hok Hbody.
  destruct (createCallbackHandler_attaches_or_not this c o s Hc Hok Hbody)
    as (s' & b & Hrun & Hfield & Htrace).
  exists s', b. split; [done|]. split; [done|].
  assert (Hcalls : body_calls (trace s') = body_calls (trace s) ++ setter_calls b (defaults this)).
  { rewrite Htrace, !body_calls_app, body_calls_setter_calls.
    by destruct (truthy (prop_get (props o) "body")); rewrite ?app_nil_r. }
  split; [exact Hcalls|].
  intros h config v1 v2 Htable Hv1 Hd1 Hv2 Hd2. rewrite Hcalls, Htable.
  assert (Hu1 : is_undefined v1 = false) by (by destruct v1).
  assert (Hu2 : is_undefined v2 = false) by (by destruct v2).
  destruct (PhysicsGroup_defaults_head h config) as (rest & ->).
  unfold setter_calls.
  rewrite defined_entries_cons, Hv1, Hu1, defined_entries_cons, Hv2, Hu2.
  cbn [map fst snd]. by eexists.
Qed.

Lemma createCallbackHandler_calls_setters_in_table_order_witness :
  hook_ready world_group world_heap (Obj InstanceObject [("name", VStr "ship")] []) /\
  exists s',
    createCallbackHandler world_group (VRef 0) world_state = Some (VUndefined, s') /\
    body_calls (trace s') =
      [ BodyCall 11 "setCollideWorldBounds" (VBool true);
        BodyCall 11 "setBoundsRectangle" (VRef 4);
        BodyCall 11 "setVelocityX" (VNum 5) ].
Proof.
  assert (Hready : hook_ready world_group (heap world_state)
                     (Obj InstanceObject [("name", VStr "ship")] []))
    by (left; split; reflexivity).
  split; [exact Hready|].
  destruct (createCallbackHandler_calls_setters_in_table_order
              world_group 0 _ world_state
              (eq_refl : heap world_state !! 0%nat = Some _)
              (PhysicsGroup_defaults_ok sample_heap (VRef 5)) Hready)
    as (s' & b & Hrun & Hbody & Hcalls & _).
  exists s'. split; [exact Hrun|].
  assert (b = 11%nat) as ->.
  { vm_compute in Hrun. injection Hrun as <-. vm_compute in Hbody. by injection Hbody as <-. }
  exact Hcalls.
Defined.

(** C6, as the claim words its example: on a configuration that sets both
    [collideWorldBounds] and [customBoundsRectangle], [setBoundsRectangle] is
    not invoked before [setCollideWorldBounds]; it is invoked right after. *)
Lemma setBoundsRectangle_is_not_invoked_first :
  exists g s1 s2,
    PhysicsGroup VNull VNull (VRef 5) VUndefined sample_state = Some (g, s1) /\
    createCallbackHandler g (VRef 1) s1 = Some (VUndefined, s2) /\
    body_calls (trace s2) =
      [ BodyCall 2 "setCollideWorldBounds" (VBool true);
        BodyCall 2 "setBoundsRectangle" (VRef 4);
        BodyCall 2 "setVelocityX" (VNum 5) ] /\
    ~ invoked_before "setBoundsRectangle" "setCollideWorldBounds" (trace s2).
Proof.
  eexists _, _, _. split; [by vm_compute|]. split; [by vm_compute|].
  split; [by vm_compute|].
  intros (i & j & b1 & v1 & b2 & v2 & Hi & Hj & Hlt). cbn [trace] in Hi, Hj.
  destruct i as [|[|[|[|i]]]]; try discriminate Hi;
    destruct j as [|[|[|[|j]]]]; try discriminate Hj; lia.
Qed.

(** C7: calling the creation hook twice on an entity that already carries a
    body makes no attach call, repeats the same setter calls with the same
    values, and leaves the store, and so the body, as the first call left it. *)
Theorem createCallbackHandler_twice_on_bodied_child
  (this : group) (c : loc) (o : obj) (b : loc) (s : state) :
  heap s !! c = Some o ->
  table_ok (defaults this) ->
  has_body (heap s) o b ->
  exists s1 s2,
    createCallbackHandler this (VRef c) s = Some (VUndefined, s1) /\
    createCallbackHandler this (VRef c) s1 = Some (VUndefined, s2) /\
    attach_calls (trace s2) = attach_calls (trace s) /\
    trace s1 = trace s ++ setter_calls b (defaults this) /\
    trace s2 = trace s1 ++ setter_calls b (defaults this) /\
    heap s2 = heap s1.
Proof.
  intros Hc Hok [Hbody Hb].
  assert (Hbody' : lookup_prop "body" (props o) = Some (VRef b)).
  { unfold prop_get in Hbody. by destruct (lookup_prop "body" (props o)); simplify_eq/=. }
  eexists _, _.
  split; [by apply (run_createCallbackHandler_bodied this c o s)|].
  set (h1 := foldl (setter_store b) (heap s) (defined_entries (defaults this))).
  assert (Hb1 : is_Some (h1 !! b)).
  { unfold h1. rewrite setter_store_writes. by apply foldl_store_is_Some. }
  assert (Hfield : field h1 c "body" = Some (VRef b)).
  { unfold h1. rewrite setter_store_read; [|done|by left]. unfold field. by rewrite Hc. }
  unfold field in Hfield. destruct (h1 !! c) as [o1|] eqn:Hc1; [|done]. simpl in Hfield.
  split.
  - apply (run_createCallbackHandler_bodied this c o1); [done|done| |done].
    unfold prop_get. by rewrite Hfield.
  - cbn [heap trace]. split; [|split; [done|split; [done|]]].
    + rewrite !attach_calls_app, attach_calls_setter_calls. lia.
    + apply setter_store_twice; [done|]. apply defined_entries_NoDup. by destruct Hok.
Qed.

Lemma createCallbackHandler_twice_on_bodied_child_witness :
  exists s1 s2,
    createCallbackHandler sample_group (VRef 1) sample_state = Some (VUndefined, s1) /\
    createCallbackHandler sample_group (VRef 1) s1 = Some (VUndefined, s2) /\
    attach_calls (trace s2) = 0%nat /\
    heap s2 = heap s1.
Proof.
  destruct (createCallbackHandler_twice_on_bodied_child
              sample_group 1 _ 2 sample_state
              (eq_refl : heap sample_state !! 1%nat = Some _)
              (PhysicsGroup_defaults_ok sample_heap (VRef 5))
              (conj eq_refl (ex_intro _ _ eq_refl)))
    as (s1 & s2 & Hrun1 & Hrun2 & Hattach & _ & _ & Hheap).
  exists s1, s2. by repeat split.
Defined.

(** ** The constructor *)

Section Hooks.

Implicit Types (h : list obj) (l : loc) (k : string) (v : value).

Lemma field_store_ne h l k v l' k' :
  l <> l' \/ k <> k' -> field (store h l k v) l' k' = field h l' k'.
Proof.
  intros Hne. destruct (h !! l) as [o|] eqn:Ho.
  - rewrite field_store by eauto. apply decide_False. tauto.
  - unfold store. by rewrite Ho.
Qed.

Lemma field_store_eq h l k v : is_Some (h !! l) -> field (store h l k v) l k = Some v.
Proof. intros H. rewrite field_store by done. by apply decide_True. Qed.

(** A write of the value that a property is required to have keeps the
    requirement, wherever the write lands. *)
Lemma field_store_keeps h l k v l' k' v' :
  field h l' k' = Some v' -> (k = k' -> v = v') ->
  field (store h l k v) l' k' = Some v'.
Proof.
  intros Hf Hv. destruct (decide (l = l' /\ k = k')) as [[-> ->]|Hne].
  - rewrite field_store_eq; [by rewrite Hv|].
    unfold field in Hf. by destruct (h !! l').
  - rewrite field_store_ne; [done|]. destruct (decide (l = l')); [right|left]; naive_solver.
Qed.

Lemma IsPlainObject_is_Some h l : IsPlainObject h (VRef l) = true -> is_Some (h !! l).
Proof. unfold IsPlainObject. by destruct (h !! l). Qed.

Lemma hooked_is_Some h l l' : is_Some (hooked h l !! l') <-> is_Some (h !! l').
Proof. unfold hooked. by rewrite !store_is_Some. Qed.

Lemma hooked_length h l : length (hooked h l) = length h.
Proof. unfold hooked. by rewrite !length_store. Qed.

Lemma hooked_has_hooks h l : is_Some (h !! l) -> has_hooks (hooked h l) l.
Proof.
  intros Hl. unfold has_hooks, hooked. split.
  - rewrite field_store_ne by (by right). by apply field_store_eq.
  - apply field_store_eq. by apply store_is_Some.
Qed.

Lemma hooked_keeps_hooks h l l' : has_hooks h l -> has_hooks (hooked h l') l.
Proof.
  intros [H1 H2]. unfold has_hooks, hooked.
  split; repeat (apply field_store_keeps; [|done]); done.
Qed.

Lemma hooked_field_other h l l' k :
  k <> "internalCreateCallback" -> k <> "internalRemoveCallback" ->
  field (hooked h l) l' k = field h l' k.
Proof.
  intros H1 H2. unfold hooked. rewrite !field_store_ne; [done|right..]; congruence.
Qed.

Lemma run_inject_hooks l (s : state) :
  is_Some (heap s !! l) ->
  inject_hooks (VRef l) s = Some (tt, {| heap := hooked (heap s) l; trace := trace s |}).
Proof.
  intros Hl. unfold inject_hooks. rewrite run_bind, run_put by done.
  rewrite run_put; [done|]. by apply store_is_Some.
Qed.

Lemma foldl_hooked_is_Some (ls : list loc) h l :
  is_Some (foldl hooked h ls !! l) <-> is_Some (h !! l).
Proof.
  revert h. induction ls as [|l0 ls IH]; intros h; [done|].
  cbn [foldl]. rewrite IH. apply hooked_is_Some.
Qed.

Lemma foldl_hooked_length (ls : list loc) h : length (foldl hooked h ls) = length h.
Proof.
  revert h. induction ls as [|l0 ls IH]; intros h; [done|].
  cbn [foldl]. rewrite IH. apply hooked_length.
Qed.

Lemma foldl_hooked_keeps_hooks (ls : list loc) h l :
  has_hooks h l -> has_hooks (foldl hooked h ls) l.
Proof.
  revert h. induction ls as [|l0 ls IH]; intros h Hh; [done|].
  cbn [foldl]. apply IH. by apply hooked_keeps_hooks.
Qed.

(** Every record that the [forEach] of lines 74-78 visits ends up with
    the two hooks. *)
Lemma foldl_hooked_has_hooks (ls : list loc) h l :
  l ∈ ls -> is_Some (h !! l) -> has_hooks (foldl hooked h ls) l.
Proof.
  revert h. induction ls as [|l0 ls IH]; intros h Hin Hl.
  - by apply elem_of_nil in Hin.
  - cbn [foldl]. apply elem_of_cons in Hin as [->|Hin].
    + apply foldl_hooked_keeps_hooks. by apply hooked_has_hooks.
    + apply IH; [done|]. by apply hooked_is_Some.
Qed.

Lemma foldl_hooked_field_other (ls : list loc) h l k :
  k <> "internalCreateCallback" -> k <> "internalRemoveCallback" ->
  field (foldl hooked h ls) l k = field h l k.
Proof.
  intros H1 H2. revert h. induction ls as [|l0 ls IH]; intros h; [done|].
  cbn [foldl]. rewrite IH. by apply hooked_field_other.
Qed.

Lemma run_for_each_inject (ls : list loc) (s : state) :
  Forall (fun l => is_Some (heap s !! l)) ls ->
  for_each inject_hooks (map VRef ls) s =
    Some (tt, {| heap := foldl hooked (heap s) ls; trace := trace s |}).
Proof.
  revert s. induction ls as [|l ls IH]; intros s Hall.
  - cbn. by destruct s.
  - apply Forall_cons in Hall as [Hl Hall]. cbn [map for_each foldl].
    rewrite run_bind, run_inject_hooks by done. rewrite IH; [done|].
    cbn [heap]. eapply Forall_impl; [exact Hall|]. intros l' Hl'.
    by apply hooked_is_Some.
Qed.

Lemma classed_has_hooks h l l' : has_hooks h l -> has_hooks (classed h l') l.
Proof.
  intros [H1 H2]. unfold has_hooks, classed.
  split; (apply field_store_keeps; [done|]); intros; discriminate.
Qed.

End Hooks.

Section ConstructorRuns.

Variables (w sc : value).

(** Lines 98-170, once lines 51-89 resolved the configuration to the record
    [l] of the store [heap s1]. *)
Lemma run_PhysicsGroup (children config children' : value) (l : loc) (s s1 : state) :
  PhysicsGroup_arguments children config s = Some ((children', VRef l), s1) ->
  is_Some (heap s1 !! l) ->
  PhysicsGroup w sc children config s =
    Some ({| world := w;
             physicsType := DYNAMIC_BODY;
             defaults := PhysicsGroup_defaults (classed (heap s1) l) (VRef l);
             type := "PhysicsGroup";
             children := [] |},
          {| heap := classed (heap s1) l;
             trace := trace s1 ++ [GroupCall sc children' (VRef l)] |}).
Proof.
  intros Hargs Hl. unfold PhysicsGroup. rewrite run_bind, Hargs.
  rewrite run_bind. cbn [reading]. rewrite run_bind, run_put by done.
  by rewrite run_bind.
Qed.

(** Lines 53-56 and 85-88: a new record with the two hooks. *)
Lemma run_arguments_new (children config : value) (s : state) :
  (truthy children = false /\ truthy config = false)
  \/ (IsPlainObject (heap s) children = false
      /\ (isArray (heap s) children = false
          \/ IsPlainObject (heap s) (index (heap s) children 0) = false)) ->
  PhysicsGroup_arguments children config s =
    Some ((children, VRef (length (heap s))),
          {| heap := heap s ++ [hooks_literal]; trace := trace s |}).
Proof.
  unfold PhysicsGroup_arguments.
  intros [[-> ->]|[-> [-> | ->]]]; cbn [negb andb]; try done.
  - by destruct (negb (truthy children) && negb (truthy config)).
  - rewrite andb_false_r. by destruct (negb (truthy children) && negb (truthy config)).
Qed.

(** Lines 60-65: [children] is a configuration record. *)
Lemma run_arguments_record (l : loc) (config : value) (s : state) :
  IsPlainObject (heap s) (VRef l) = true ->
  PhysicsGroup_arguments (VRef l) config s =
    Some ((VNull, VRef l), {| heap := hooked (heap s) l; trace := trace s |}).
Proof.
  intros Hplain. unfold PhysicsGroup_arguments. cbn [truthy negb andb].
  rewrite Hplain, run_bind, run_inject_hooks; [done|].
  by apply IsPlainObject_is_Some.
Qed.

(** Lines 69-80: [children] is an array of configuration records. *)
Lemma run_arguments_records (a : loc) (o : obj) (l0 : loc) (ls : list loc)
  (config : value) (s : state) :
  heap s !! a = Some o -> kind o = ArrayObject -> elems o = map VRef (l0 :: ls) ->
  Forall (fun l => IsPlainObject (heap s) (VRef l) = true) (l0 :: ls) ->
  PhysicsGroup_arguments (VRef a) config s =
    Some ((VNull, VRef l0),
          {| heap := foldl hooked (heap s) (l0 :: ls); trace := trace s |}).
Proof.
  intros Ha Hkind Helems Hall. unfold PhysicsGroup_arguments. cbn [truthy negb andb].
  assert (Hidx : index (heap s) (VRef a) 0 = VRef l0).
  { unfold index. by rewrite Ha, Helems. }
  assert (Hnot : IsPlainObject (heap s) (VRef a) = false).
  { unfold IsPlainObject. by rewrite Ha, Hkind. }
  assert (Harr : isArray (heap s) (VRef a) = true).
  { unfold isArray. by rewrite Ha, Hkind. }
  rewrite Hnot, Harr, Hidx. rewrite (Forall_inv Hall). cbn [andb].
  unfold array_elems. rewrite Ha, Helems, run_bind, run_for_each_inject; [done|].
  eapply Forall_impl; [exact Hall|]. intros l. apply IsPlainObject_is_Some.
Qed.

(** On every supported shape lines 51-89 return: the configuration is a
    record of the store and holds the two hooks. *)
Lemma PhysicsGroup_arguments_outcome (children config : value) (s : state) :
  shape (heap s) children config ->
  exists children' l h1,
    PhysicsGroup_arguments children config s
    = Some ((children', VRef l), {| heap := h1; trace := trace s |}) /\
    is_Some (h1 !! l) /\ has_hooks h1 l.
Proof.
  intros [ch cfg Hch Hcfg | ch cfg ls Hrec | l Hplain | a o cfg Ha Hkind Hall].
  - eexists _, _, _. split; [apply run_arguments_new; left|].
    + by destruct Hch as [-> | ->], Hcfg as [-> | ->].
    + split; [|split]; unfold field; rewrite ?lookup_app_r, ?Nat.sub_diag; by eauto.
  - destruct Hrec as [l Hplain | a o ls Ha Hkind Helems Hne Hall].
    + eexists _, _, _. split; [by apply run_arguments_record|].
      apply IsPlainObject_is_Some in Hplain.
      split; [by apply hooked_is_Some | by apply hooked_has_hooks].
    + destruct ls as [|l0 ls]; [done|].
      eexists _, _, _. split; [by eapply run_arguments_records|].
      pose proof (IsPlainObject_is_Some _ _ (Forall_inv Hall)) as Hl0.
      split; [by apply foldl_hooked_is_Some|].
      apply foldl_hooked_has_hooks; [left | done].
  - eexists _, _, _. split; [apply run_arguments_new; right; by split; [|left]|].
    split; [|split]; unfold field; rewrite ?lookup_app_r, ?Nat.sub_diag; by eauto.
  - eexists _, _, _. split; [apply run_arguments_new; right|].
    + split; [unfold IsPlainObject; by rewrite Ha, Hkind|]. right.
      unfold index. rewrite Ha. destruct (elems o) as [|v vs]; [done|].
      apply Forall_inv in Hall as (e & oe & -> & He & Hk). cbn.
      unfold IsPlainObject. by rewrite He, Hk.
    + split; [|split]; unfold field; rewrite ?lookup_app_r, ?Nat.sub_diag; by eauto.
Qed.

(** On every supported shape the constructor returns; the base constructor
    is called with the resolved record, which by then holds the hooks and a
    [classType], and the defaults are read from that record. *)
Lemma PhysicsGroup_outcome (children config : value) (s : state) :
  shape (heap s) children config ->
  exists children' l h1,
    PhysicsGroup_arguments children config s
    = Some ((children', VRef l), {| heap := h1; trace := trace s |}) /\
    is_Some (h1 !! l) /\ has_hooks h1 l /\
    PhysicsGroup w sc children config s =
      Some ({| world := w;
               physicsType := DYNAMIC_BODY;
               defaults := PhysicsGroup_defaults (classed h1 l) (VRef l);
               type := "PhysicsGroup";
               children := [] |},
            {| heap := classed h1 l;
               trace := trace s ++ [GroupCall sc children' (VRef l)] |}).
Proof.
  intros Hshape.
  destruct (PhysicsGroup_arguments_outcome _ _ _ Hshape) as (ch' & l & h1 & Hargs & Hl & Hh).
  exists ch', l, h1. repeat (split; [done|]).
  by rewrite (run_PhysicsGroup _ _ _ _ _ _ Hargs Hl).
Qed.

End ConstructorRuns.

(** C2: for every supported shape of the construction arguments the
    constructor returns, and the configuration record that it passes to the
    base Group constructor holds [createCallbackHandler] as its
    [internalCreateCallback] and [removeCallbackHandler] as its
    [internalRemoveCallback], whatever the caller had put there. *)
Theorem PhysicsGroup_passes_config_with_hooks
  (w sc children config : value) (s : state) :
  shape (heap s) children config ->
  exists g s' children' l,
    PhysicsGroup w sc children config s = Some (g, s') /\
    trace s' = trace s ++ [GroupCall sc children' (VRef l)] /\
    field (heap s') l "internalCreateCallback" = Some (VFun createCallbackHandlerRef) /\
    field (heap s') l "internalRemoveCallback" = Some (VFun removeCallbackHandlerRef).
Proof.
  intros Hshape.
  destruct (PhysicsGroup_outcome w sc _ _ _ Hshape) as (ch' & l & h1 & _ & _ & Hh & Hrun).
  eexists _, _, ch', l. split; [exact Hrun|]. split; [done|].
  cbn [heap]. by apply classed_has_hooks.
Qed.

Lemma PhysicsGroup_passes_config_with_hooks_witness :
  shape sample_heap (VRef 7) VUndefined /\
  field sample_heap 7 "internalCreateCallback" = Some (VFun (OtherFunction 2)) /\
  exists g s',
    PhysicsGroup VNull VNull (VRef 7) VUndefined sample_state = Some (g, s') /\
    trace s' = [GroupCall VNull VNull (VRef 7)] /\
    field (heap s') 7 "internalCreateCallback" = Some (VFun createCallbackHandlerRef) /\
    field (heap s') 7 "internalRemoveCallback" = Some (VFun removeCallbackHandlerRef).
Proof.
  assert (Hshape : shape (heap sample_state) (VRef 7) VUndefined).
  { apply (shape_records _ _ _ [7%nat]). by apply one_record. }
  split; [exact Hshape|]. split; [reflexivity|].
  destruct (PhysicsGroup_passes_config_with_hooks VNull VNull _ _ sample_state Hshape)
    as (g & s' & ch' & l & Hrun & Htrace & Hc & Hr).
  exists g, s'. split; [exact Hrun|].
  vm_compute in Hrun. injection Hrun as <- <-.
  cbn [trace app] in Htrace. injection Htrace as <- <-.
  by repeat split.
Defined.

(** C9: when [children] is an array whose first element is not a
    configuration record and a configuration record is passed as [config],
    lines 82-89 resolve the configuration to a new record that holds the two
    hooks and nothing else.  The supplied record is neither read nor
    written: the constructor returns what it returns for any other [config],
    every entry of the defaults table is undefined, and the class of new
    members is [ArcadeSprite]. *)
Theorem PhysicsGroup_discards_config_given_entities
  (w sc : value) (a cfg : loc) (o : obj) (s : state) :
  heap s !! a = Some o -> kind o = ArrayObject ->
  IsPlainObject (heap s) (index (heap s) (VRef a) 0) = false ->
  IsPlainObject (heap s) (VRef cfg) = true ->
  let fresh := length (heap s) in
  PhysicsGroup_arguments (VRef a) (VRef cfg) s
  = Some ((VRef a, VRef fresh),
          {| heap := heap s
                     ++ [Obj PlainObject
                           [ ("internalCreateCallback", VFun createCallbackHandlerRef);
                             ("internalRemoveCallback", VFun removeCallbackHandlerRef) ] []];
             trace := trace s |}) /\
  exists g s',
    PhysicsGroup w sc (VRef a) (VRef cfg) s = Some (g, s') /\
    (forall config', PhysicsGroup w sc (VRef a) config' s = Some (g, s')) /\
    trace s' = trace s ++ [GroupCall sc (VRef a) (VRef fresh)] /\
    heap s' = heap s
              ++ [Obj PlainObject
                    [ ("internalCreateCallback", VFun createCallbackHandlerRef);
                      ("internalRemoveCallback", VFun removeCallbackHandlerRef);
                      ("classType", VFun ArcadeSprite) ] []] /\
    heap s' !! cfg = heap s !! cfg /\
    Forall (fun kv => kv.2 = VUndefined) (defaults g).
Proof.
  intros Ha Hkind Hfirst Hcfg fresh.
  assert (Hnot : IsPlainObject (heap s) (VRef a) = false).
  { unfold IsPlainObject. by rewrite Ha, Hkind. }
  assert (Hargs : forall config', PhysicsGroup_arguments (VRef a) config' s
            = Some ((VRef a, VRef fresh),
                    {| heap := heap s ++ [hooks_literal]; trace := trace s |})).
  { intros config'. apply run_arguments_new. right. split; [done|by right]. }
  split; [apply Hargs|].
  assert (Hnew : classed (heap s ++ [hooks_literal]) fresh
                 = heap s ++ [Obj PlainObject
                    [ ("internalCreateCallback", VFun createCallbackHandlerRef);
                      ("internalRemoveCallback", VFun removeCallbackHandlerRef);
                      ("classType", VFun ArcadeSprite) ] []]).
  { unfold classed, GetFastValue, field, store, fresh.
    rewrite lookup_app_r, Nat.sub_diag by lia. cbn.
    rewrite insert_app_r_alt, Nat.sub_diag by lia. done. }
  assert (Hrun : forall config', PhysicsGroup w sc (VRef a) config' s
            = Some ({| world := w; physicsType := DYNAMIC_BODY;
                       defaults := PhysicsGroup_defaults
                                     (classed (heap s ++ [hooks_literal]) fresh) (VRef fresh);
                       type := "PhysicsGroup"; children := [] |},
                    {| heap := classed (heap s ++ [hooks_literal]) fresh;
                       trace := trace s ++ [GroupCall sc (VRef a) (VRef fresh)] |})).
  { intros config'. rewrite (run_PhysicsGroup w sc _ _ _ _ _ _ (Hargs config')); [done|].
    cbn [heap]. unfold fresh. rewrite lookup_app_r, Nat.sub_diag by lia. by eexists. }
  eexists _, _. split; [apply Hrun|]. split; [exact Hrun|]. cbn [heap trace defaults].
  split; [done|]. split; [exact Hnew|]. split.
  - rewrite Hnew. apply lookup_app_l. apply lookup_lt_is_Some.
    by apply IsPlainObject_is_Some.
  - rewrite Hnew. unfold PhysicsGroup_defaults, GetFastValue, field, fresh.
    rewrite lookup_app_r, Nat.sub_diag by lia. cbn.
    repeat (constructor; [reflexivity|]). constructor.
Qed.

Lemma PhysicsGroup_discards_config_given_entities_witness :
  field sample_heap 5 "velocityX" = Some (VNum 5) /\
  exists g s',
    PhysicsGroup VNull VNull (VRef 6) (VRef 5) sample_state = Some (g, s') /\
    trace s' = [GroupCall VNull (VRef 6) (VRef 9)] /\
    heap s' !! 5%nat = sample_heap !! 5%nat /\
    prop_get (defaults g) "setVelocityX" = VUndefined.
Proof.
  split; [reflexivity|].
  destruct (PhysicsGroup_discards_config_given_entities VNull VNull 6 5 _ sample_state
              (eq_refl : heap sample_state !! 6%nat = Some _) eq_refl eq_refl eq_refl)
    as (_ & g & s' & Hrun & _ & Htrace & _ & Hcfg & Hall).
  exists g, s'. split; [exact Hrun|]. split; [exact Htrace|]. split; [exact Hcfg|].
  vm_compute in Hrun. by injection Hrun as <- <-.
Defined.

(** C10: when [children] is a configuration record, or an array of
    configuration records, the constructor allocates nothing and writes into
    the records it was given: each of them ends up holding the two hooks, the
    record adopted as the configuration (the first one) also holds a
    [classType], and that very record is passed to the base constructor. *)
Theorem PhysicsGroup_writes_into_supplied_records
  (w sc children config : value) (ls : list loc) (s : state) :
  supplies_records (heap s) children ls ->
  exists g s' l0,
    head ls = Some l0 /\
    PhysicsGroup w sc children config s = Some (g, s') /\
    trace s' = trace s ++ [GroupCall sc VNull (VRef l0)] /\
    length (heap s') = length (heap s) /\
    (forall l, l ∈ ls -> has_hooks (heap s') l) /\
    field (heap s') l0 "classType"
    = Some (GetFastValue (heap s) (VRef l0) "classType" (VFun ArcadeSprite)).
Proof.
  intros [l Hplain | a o ls' Ha Hkind Helems Hne Hall].
  - pose proof (IsPlainObject_is_Some _ _ Hplain) as Hl.
    eexists _, _, l. split; [done|].
    split; [eapply (run_PhysicsGroup w sc); [by apply run_arguments_record|]|].
    { cbn [heap]. by apply hooked_is_Some. }
    cbn [heap trace]. split; [done|]. unfold classed.
    split; [by rewrite length_store, hooked_length|]. split.
    + intros l' ->%list_elem_of_singleton. apply classed_has_hooks.
      by apply hooked_has_hooks.
    + rewrite field_store_eq by (by apply hooked_is_Some). f_equal.
      unfold GetFastValue. by rewrite hooked_field_other.
  - destruct ls' as [|l0 ls']; [done|].
    pose proof (IsPlainObject_is_Some _ _ (Forall_inv Hall)) as Hl0.
    eexists _, _, l0. split; [done|].
    split; [eapply (run_PhysicsGroup w sc); [by eapply run_arguments_records|]|].
    { cbn [heap]. by apply foldl_hooked_is_Some. }
    cbn [heap trace]. split; [done|]. unfold classed.
    split; [by rewrite length_store, foldl_hooked_length|]. split.
    + intros l' Hin. apply classed_has_hooks. apply foldl_hooked_has_hooks; [done|].
      rewrite Forall_forall in Hall. by apply IsPlainObject_is_Some, Hall.
    + rewrite field_store_eq by (by apply foldl_hooked_is_Some). f_equal.
      unfold GetFastValue. by rewrite foldl_hooked_field_other.
Qed.

Lemma PhysicsGroup_writes_into_supplied_records_witness :
  supplies_records sample_heap (VRef 8) [5; 7]%nat /\
  exists g s',
    PhysicsGroup VNull VNull (VRef 8) VUndefined sample_state = Some (g, s') /\
    trace s' = [GroupCall VNull VNull (VRef 5)] /\
    has_hooks (heap s') 5 /\ has_hooks (heap s') 7 /\
    field (heap s') 5 "classType" = Some (VFun ArcadeSprite).
Proof.
  assert (Hrec : supplies_records (heap sample_state) (VRef 8) [5; 7]%nat).
  { eapply array_of_records; [reflexivity..|done|]. by repeat constructor. }
  split; [exact Hrec|].
  destruct (PhysicsGroup_writes_into_supplied_records VNull VNull _ VUndefined _ _ Hrec)
    as (g & s' & l0 & Hhd & Hrun & Htrace & _ & Hhooks & Hclass).
  injection Hhd as <-.
  exists g, s'. split; [exact Hrun|]. split; [exact Htrace|].
  split; [apply Hhooks; by left|]. split; [apply Hhooks; right; by left|].
  exact Hclass.
Defined.

(** ** The defaults table *)

Section DefaultsTable.

Lemma prop_get_PhysicsGroup_defaults (h : list obj) (config : value)
  (setter fld : string) :
  (setter, fld) ∈ defaults_fields ->
  prop_get (PhysicsGroup_defaults h config) setter = GetFastValue h config fld VUndefined.
Proof.
  intros Hin. unfold defaults_fields in Hin.
  repeat (apply elem_of_cons in Hin as [E|Hin]; [by injection E as -> ->|]).
  by apply elem_of_nil in Hin.
Qed.

(** An entry without a value is never the subject of a setter call. *)
Lemma setter_calls_skip_undefined (table : list (string * value)) (key : string)
  (b b' : loc) (v : value) :
  NoDup (map fst table) -> prop_get table key = VUndefined ->
  BodyCall b key v ∉ setter_calls b' table.
Proof.
  intros Hnd Hundef Hin. unfold setter_calls in Hin.
  apply list_elem_of_fmap in Hin as ([k' v'] & [= -> -> ->] & Hin).
  apply list_elem_of_In, List.filter_In in Hin as [Hin Hdef].
  apply list_elem_of_In in Hin.
  unfold prop_get in Hundef. rewrite (lookup_prop_NoDup _ _ _ Hnd Hin) in Hundef.
  cbn in Hundef. subst v'. discriminate Hdef.
Qed.

End DefaultsTable.

(** C4, as the claim counts: the table that the constructor builds has 25
    entries, not 24. *)
Lemma PhysicsGroup_defaults_has_25_entries_not_24 :
  exists g s',
    PhysicsGroup VNull VNull (VRef 5) VUndefined sample_state = Some (g, s') /\
    map fst (defaults g) = map fst defaults_fields /\
    length (defaults g) = 25%nat /\
    length (defaults g) <> 24%nat.
Proof. eexists _, _. split; [by vm_compute|]. by repeat split. Qed.

(** C4, as the code has it: the defaults table that the constructor builds
    has 25 entries, one per setter of [defaults_fields], each read from its
    own field of the resolved configuration record.  The entry of a field
    that the record does not have is undefined, and the creation hook never
    invokes its setter (on a child with a body, or on a child without one
    when the world of the group is a World). *)
Theorem PhysicsGroup_defaults_read_25_optional_fields
  (w sc children config : value) (s : state) :
  shape (heap s) children config ->
  exists g s' children' cfg,
    PhysicsGroup w sc children config s = Some (g, s') /\
    trace s' = trace s ++ [GroupCall sc children' (VRef cfg)] /\
    defaults g
    = map (fun p => (p.1, GetFastValue (heap s') (VRef cfg) p.2 VUndefined)) defaults_fields /\
    length (defaults g) = 25%nat /\
    forall setter fld,
      (setter, fld) ∈ defaults_fields -> field (heap s') cfg fld = None ->
      prop_get (defaults g) setter = VUndefined /\
      forall (c : loc) (o : obj) (s0 : state),
        heap s0 !! c = Some o ->
        hook_ready g (heap s0) o ->
        exists s1,
          createCallbackHandler g (VRef c) s0 = Some (VUndefined, s1) /\
          forall b v, BodyCall b setter v ∉ drop (length (trace s0)) (trace s1).
Proof.
  intros Hshape.
  destruct (PhysicsGroup_outcome w sc _ _ _ Hshape) as (ch' & l & h1 & _ & _ & _ & Hrun).
  eexists _, _, ch', l. split; [exact Hrun|]. cbn [heap trace defaults].
  split; [done|]. split; [done|]. split; [done|].
  intros setter fld Hin Hnone.
  assert (Hundef : prop_get (PhysicsGroup_defaults (classed h1 l) (VRef l)) setter = VUndefined).
  { rewrite (prop_get_PhysicsGroup_defaults _ _ _ _ Hin). unfold GetFastValue. by rewrite Hnone. }
  split; [exact Hundef|].
  intros c o s0 Hc Hbody.
  set (g := {| world := w; physicsType := DYNAMIC_BODY;
               defaults := PhysicsGroup_defaults (classed h1 l) (VRef l);
               type := "PhysicsGroup"; children := [] |}).
  destruct (createCallbackHandler_attaches_or_not g c o s0 Hc
              (PhysicsGroup_defaults_ok _ _) Hbody) as (s1 & b' & Hhook & _ & Htrace).
  exists s1. split; [exact Hhook|]. intros b v Hin'.
  rewrite Htrace, <- app_assoc, drop_app_length in Hin'.
  apply elem_of_app in Hin' as [Hin'|Hin'].
  - destruct (truthy (prop_get (props o) "body")).
    + by apply elem_of_nil in Hin'.
    + by apply list_elem_of_singleton in Hin'.
  - revert Hin'. apply setter_calls_skip_undefined; [|exact Hundef].
    apply PhysicsGroup_defaults_ok.
Qed.

Lemma PhysicsGroup_defaults_read_25_optional_fields_witness :
  shape world_heap (VRef 5) VUndefined /\
  exists g s' s1,
    PhysicsGroup (VRef 9) VNull (VRef 5) VUndefined world_state = Some (g, s') /\
    length (defaults g) = 25%nat /\
    prop_get (defaults g) "setVelocityX" = VNum 5 /\
    prop_get (defaults g) "setMass" = VUndefined /\
    is_World (heap s') (world g) = true /\
    createCallbackHandler g (VRef 0) s' = Some (VUndefined, s1) /\
    forall b v, BodyCall b "setMass" v ∉ drop (length (trace s')) (trace s1).
Proof.
  assert (Hshape : shape (heap world_state) (VRef 5) VUndefined).
  { apply (shape_records _ _ _ [5%nat]). by apply one_record. }
  split; [exact Hshape|].
  destruct (PhysicsGroup_defaults_read_25_optional_fields (VRef 9) VNull _ _ world_state Hshape)
    as (g & s' & ch' & cfg & Hrun & Htrace & Htable & Hlen & Habsent).
  assert (Hin : ("setMass", "mass") ∈ defaults_fields).
  { unfold defaults_fields. do 23 (apply elem_of_cons; right). apply elem_of_cons. by left. }
  assert (Hs' : field (heap s') cfg "mass" = None /\
                prop_get (defaults g) "setVelocityX" = VNum 5 /\
                is_World (heap s') (world g) = true /\
                exists o, heap s' !! 0%nat = Some o /\ no_body o).
  { pose proof Hrun as Hrun'. vm_compute in Hrun'. injection Hrun' as <- <-.
    cbn [trace world_state app] in Htrace. injection Htrace as _ <-.
    repeat split. eexists. split; reflexivity. }
  destruct Hs' as (Hnone & Hvx & Hworld & o & Ho & Hno).
  destruct (Habsent "setMass" "mass" Hin Hnone) as [Hundef Hhook].
  destruct (Hhook 0%nat o s' Ho (or_introl (conj Hno Hworld))) as (s1 & Hrun1 & Hnot).
  exists g, s', s1. by repeat split.
Defined.

(** ** The bulk velocity setters *)

Section VelocityVector.

Implicit Types (h : list obj) (v l : loc) (item : value).

Lemma velocity_vector_Some h item v :
  velocity_vector h item = Some v <->
  exists e b, item = VRef e /\ field h e "body" = Some (VRef b) /\
              field h b "velocity" = Some (VRef v) /\ is_Some (h !! v).
Proof.
  unfold velocity_vector. split.
  - destruct item as [| | | | | |e]; try done.
    destruct (field h e "body") as [[| | | | | |b]|] eqn:Hb; try done.
    destruct (field h b "velocity") as [[| | | | | |v']|] eqn:Hv; try done.
    destruct (h !! v') eqn:Hv'; [|done]. intros [= ->]. by eexists _, _.
  - intros (e & b & -> & -> & -> & [o ->]). done.
Qed.

Lemma run_get_field (l : loc) (k : string) (x : value) (s : state) :
  field (heap s) l k = Some x -> get (VRef l) k s = Some (x, s).
Proof.
  unfold field, get, prop_get. destruct (heap s !! l) as [o|]; [|done].
  cbn. by intros ->.
Qed.

(** A store that differs only in the coordinates of vectors has the same
    vectors at the same items. *)
Lemma velocity_vector_frame h h' item :
  (forall l, is_Some (h' !! l) <-> is_Some (h !! l)) ->
  (forall l k, k <> "x" -> k <> "y" -> field h' l k = field h l k) ->
  velocity_vector h' item = velocity_vector h item.
Proof.
  intros Hsome Hframe. unfold velocity_vector.
  destruct item as [| | | | | |e]; try done.
  rewrite Hframe by done. destruct (field h e "body") as [[| | | | | |b]|]; try done.
  rewrite Hframe by done. destruct (field h b "velocity") as [[| | | | | |v]|]; try done.
  specialize (Hsome v). destruct (h !! v) as [o|], (h' !! v) as [o'|]; try done.
  - destruct Hsome as [_ H]. by destruct H.
  - destruct Hsome as [H _]. by destruct H.
Qed.

End VelocityVector.

Section VelocityLoops.

Variable items : list value.

(** The assignment that a loop makes to [items[i].body.velocity], and what
    it does to the store. *)
Variable write : value -> nat -> M unit.
Variable eff : list obj -> loc -> nat -> list obj.

Hypothesis write_run : forall (v : loc) (i : nat) (s : state),
  is_Some (heap s !! v) ->
  write (VRef v) i s = Some (tt, {| heap := eff (heap s) v i; trace := trace s |}).
Hypothesis eff_is_Some : forall h v i l, is_Some (eff h v i !! l) <-> is_Some (h !! l).
Hypothesis eff_frame : forall h v i l k,
  k <> "x" -> k <> "y" -> field (eff h v i) l k = field h l k.

Lemma sweep_is_Some (vs : list loc) (i : nat) (h : list obj) (l : loc) :
  is_Some (sweep eff i vs h !! l) <-> is_Some (h !! l).
Proof.
  revert i h. induction vs as [|v vs IH]; intros i h; [done|].
  cbn [sweep]. by rewrite IH, eff_is_Some.
Qed.

Lemma sweep_frame (vs : list loc) (i : nat) (h : list obj) (l : loc) (k : string) :
  k <> "x" -> k <> "y" -> field (sweep eff i vs h) l k = field h l k.
Proof.
  intros Hx Hy. revert i h. induction vs as [|v vs IH]; intros i h; [done|].
  cbn [sweep]. by rewrite IH, eff_frame.
Qed.

(** The loop [for (var i = 0; i < items.length; i++)] from index [i] on. *)
Lemma run_sweep (rest : list value) (vs : list loc) (i : nat) (s : state) :
  drop i items = rest ->
  mapM (velocity_vector (heap s)) rest = Some vs ->
  for_each (fun i =>
              item ← mret (default VUndefined (items !! i));
              body ← get item "body";
              velocity ← get body "velocity";
              write velocity i)
           (seq i (length rest)) s
  = Some (tt, {| heap := sweep eff i vs (heap s); trace := trace s |}).
Proof.
  revert vs i s. induction rest as [|item rest IH]; intros vs i s Hdrop Hvs.
  - cbn in Hvs. injection Hvs as <-. cbn. by destruct s.
  - apply mapM_Some in Hvs. apply Forall2_cons_inv_l in Hvs as (v & vs' & Hv & Hvs' & ->).
    cbn [length seq for_each sweep]. rewrite run_bind.
    assert (Hitem : items !! i = Some item).
    { rewrite <- (Nat.add_0_r i), <- lookup_drop, Hdrop. done. }
    apply velocity_vector_Some in Hv as (e & b & -> & Hb & Hvel & Hsome).
    rewrite run_bind, run_ret, Hitem. cbn [default from_option id].
    rewrite run_bind, (run_get_field _ _ _ _ Hb).
    rewrite run_bind, (run_get_field _ _ _ _ Hvel).
    rewrite write_run by done.
    rewrite (IH vs' (S i)); [done| |].
    + rewrite (drop_S _ _ _ Hitem) in Hdrop. by injection Hdrop.
    + cbn [heap]. apply mapM_Some. eapply Forall2_impl; [exact Hvs'|].
      intros item' v' <-. apply velocity_vector_frame; [apply eff_is_Some|apply eff_frame].
Qed.

End VelocityLoops.

Section SetBoth.

Variables (x y step : Z).

Lemma run_Vector2_set (v : loc) (i : nat) (s : state) :
  is_Some (heap s !! v) ->
  Vector2_set (VRef v) (x + Z.of_nat i * step) (y + Z.of_nat i * step) s
  = Some (tt, {| heap := set_both x y step (heap s) v i; trace := trace s |}).
Proof.
  intros Hv. unfold Vector2_set. rewrite run_bind, run_put by done.
  rewrite run_put; [done|]. by apply store_is_Some.
Qed.

Lemma set_both_is_Some h v i l :
  is_Some (set_both x y step h v i !! l) <-> is_Some (h !! l).
Proof. unfold set_both. by rewrite !store_is_Some. Qed.

Lemma set_both_frame h v i l k :
  k <> "x" -> k <> "y" -> field (set_both x y step h v i) l k = field h l k.
Proof.
  intros Hx Hy. unfold set_both. rewrite !field_store_ne; [done|right..]; congruence.
Qed.





End SetBoth.

Section SetOne.

Variables (key : string) (value step : Z).

Lemma set_one_is_Some h v i l :
  is_Some (set_one key value step h v i !! l) <-> is_Some (h !! l).
Proof. unfold set_one. by rewrite store_is_Some. Qed.

Lemma set_one_frame h v i l k :
  k <> key -> field (set_one key value step h v i) l k = field h l k.
Proof. intros Hk. unfold set_one. rewrite field_store_ne; [done|right]. congruence. Qed.

Lemma sweep_set_one_frame (vs : list loc) (i : nat) h l k :
  k <> key -> field (sweep (set_one key value step) i vs h) l k = field h l k.
Proof.
  intros Hk. revert i h. induction vs as [|v vs IH]; intros i h; [done|].
  cbn [sweep]. by rewrite IH, set_one_frame.
Qed.

(** Cells that the loop does not visit are not touched. *)
Lemma sweep_set_one_other (vs : list loc) (i : nat) h l :
  l ∉ vs -> sweep (set_one key value step) i vs h !! l = h !! l.
Proof.
  revert i h. induction vs as [|v vs IH]; intros i h Hl; [done|].
  apply not_elem_of_cons in Hl as [Hne Hl]. cbn [sweep].
  rewrite IH by done. unfold set_one. by apply store_other.
Qed.

Lemma sweep_set_one_length (vs : list loc) (i : nat) h :
  length (sweep (set_one key value step) i vs h) = length h.
Proof.
  revert i h. induction vs as [|v vs IH]; intros i h; [done|].
  cbn [sweep]. rewrite IH. unfold set_one. apply length_store.
Qed.

End SetOne.

(** Without a step every visited vector ends up with the same value. *)
Lemma sweep_set_one_written (key : string) (value : Z) (vs : list loc) (i : nat)
  (h : list obj) (v : loc) :
  v ∈ vs -> Forall (fun v => is_Some (h !! v)) vs ->
  field (sweep (set_one key value 0) i vs h) v key = Some (VNum value).
Proof.
  assert (Hkeep : forall vs i h, field h v key = Some (VNum value) ->
            field (sweep (set_one key value 0) i vs h) v key = Some (VNum value)).
  { clear. induction vs as [|v0 vs IH]; intros i h Hf; [done|].
    cbn [sweep]. apply IH. unfold set_one. apply field_store_keeps; [done|].
    intros _. f_equal. lia. }
  revert i h. induction vs as [|v0 vs IH]; intros i h Hin Hall.
  - by apply elem_of_nil in Hin.
  - apply Forall_cons in Hall as [Hsome Hall]. cbn [sweep].
    apply elem_of_cons in Hin as [->|Hin].
    + apply Hkeep. unfold set_one. rewrite field_store_eq by done. f_equal. f_equal. lia.
    + apply IH; [done|]. eapply Forall_impl; [exact Hall|].
      intros v'. by rewrite set_one_is_Some.
Qed.


Section Members.

(** The vectors of the members are cells of the store. *)
Lemma vectors_allocated (h : list obj) (items : list value) (vs : list loc) :
  mapM (velocity_vector h) items = Some vs -> Forall (fun v => is_Some (h !! v)) vs.
Proof.
  intros H%mapM_Some. induction H as [|item v items vs Hv _ IH]; constructor; [|done].
  by apply velocity_vector_Some in Hv as (e & b & _ & _ & _ & Hsome).
Qed.

Lemma vectors_lookup (h : list obj) (items : list value) (vs : list loc)
  (i : nat) (item : value) :
  mapM (velocity_vector h) items = Some vs -> items !! i = Some item ->
  exists v, vs !! i = Some v /\ velocity_vector h item = Some v.
Proof.
  intros H%mapM_Some Hi. destruct (Forall2_lookup_l _ _ _ _ _ H Hi) as (v & ? & ?).
  by exists v.
Qed.

End Members.



(** C8: [setVelocityX(value)] without a step returns the group itself and
    sets the X component of the velocity of every member to [value]; the Y
    components, every other property of every object and every cell that is
    not the velocity vector of a member stay as they were. *)
Theorem setVelocityX_without_step_sets_x_only
  (this : group) (value : Z) (s : state) (vs : list loc) :
  mapM (velocity_vector (heap s)) (getChildren this) = Some vs ->
  exists s',
    setVelocityX this value None s = Some (this, s') /\
    trace s' = trace s /\
    length (heap s') = length (heap s) /\
    (forall item, item ∈ getChildren this ->
       exists v, velocity_vector (heap s) item = Some v /\
                 velocity_vector (heap s') item = Some v /\
                 field (heap s') v "x" = Some (VNum value) /\
                 field (heap s') v "y" = field (heap s) v "y") /\
    (forall l k, k <> "x" -> field (heap s') l k = field (heap s) l k) /\
    (forall l, l ∉ vs -> heap s' !! l = heap s !! l).
Proof.
  intros Hvs.
  assert (Hsome : forall h v i l,
            is_Some (set_one "x" value 0 h v i !! l) <-> is_Some (h !! l))
    by apply set_one_is_Some.
  assert (Hframe : forall h v i l k, k <> "x" -> k <> "y" ->
            field (set_one "x" value 0 h v i) l k = field h l k)
    by (intros; by apply set_one_frame).
  eexists. split.
  - unfold setVelocityX, step_or_zero. cbv zeta. cbn [default from_option].
    rewrite run_bind.
    rewrite (run_sweep (getChildren this)
               (fun velocity i => put velocity "x" (VNum (value + Z.of_nat i * 0)))
               (set_one "x" value 0)
               (fun v i s Hv => run_put v "x" _ s Hv) Hsome Hframe
               (getChildren this) vs 0 s eq_refl Hvs).
    by rewrite run_ret.
  - cbn [heap trace]. split; [done|]. split; [apply sweep_set_one_length|].
    split; [|split].
    + intros item Hin. apply list_elem_of_lookup in Hin as [i Hi].
      destruct (vectors_lookup _ _ _ _ _ Hvs Hi) as (v & Hv & Hvec).
      exists v. split; [done|]. split.
      * rewrite <- Hvec. apply velocity_vector_frame; [apply sweep_is_Some, Hsome|].
        apply sweep_frame, Hframe.
      * split; [|by apply sweep_set_one_frame].
        apply sweep_set_one_written; [|by eapply vectors_allocated].
        apply list_elem_of_lookup. by exists i.
    + intros l k Hk. by apply sweep_set_one_frame.
    + intros l Hl. by apply sweep_set_one_other.
Qed.

Lemma setVelocityX_without_step_sets_x_only_witness :
  exists s',
    setVelocityX fleet 100 None fleet_state = Some (fleet, s') /\
    read_velocity (heap s') (VRef 0) = Some (VNum 100, VNum 2) /\
    read_velocity (heap s') (VRef 1) = Some (VNum 100, VNum 4) /\
    read_velocity (heap s') (VRef 2) = Some (VNum 100, VNum 6) /\
    field (heap s') 3 "mass" = Some (VNum 1).
Proof.
  destruct (setVelocityX_without_step_sets_x_only fleet 100 fleet_state [6; 7; 8]%nat eq_refl)
    as (s' & Hrun & _ & _ & _ & _ & _).
  exists s'. split; [exact Hrun|].
  vm_compute in Hrun. by injection Hrun as <-.
Defined.

(** ** More on the bulk velocity setters *)

Section StoreCommutes.

Implicit Types (h : list obj) (l v : loc) (k : string).

(** Assignments to different cells can be swapped. *)
Lemma store_commute h l k a l' k' b :
  l <> l' -> store (store h l k a) l' k' b = store (store h l' k' b) l k a.
Proof.
  intros Hne. unfold store.
  destruct (h !! l) as [o|] eqn:Ho, (h !! l') as [o'|] eqn:Ho';
    rewrite ?list_lookup_insert_ne, ?Ho, ?Ho' by done; try done.
  by apply list_insert_insert_ne.
Qed.

Lemma set_one_unfold (key : string) (value step : Z) h v (i : nat) :
  set_one key value step h v i = store h v key (VNum (value + Z.of_nat i * step)).
Proof. reflexivity. Qed.

Lemma sweep_set_one_store (key : string) (value step : Z) (vs : list loc) (i : nat)
  h v k b :
  v ∉ vs ->
  sweep (set_one key value step) i vs (store h v k b)
  = store (sweep (set_one key value step) i vs h) v k b.
Proof.
  revert i h. induction vs as [|v0 vs IH]; intros i h Hv; [done|].
  apply not_elem_of_cons in Hv as [Hne Hv]. cbn [sweep].
  rewrite (set_one_unfold key value step (store h v k b)), store_commute by done.
  by rewrite IH.
Qed.

(** One loop over both components does what a loop over the X components
    followed by a loop over the Y components does. *)
Lemma sweep_set_both_split (x y step : Z) (vs : list loc) (i : nat) h :
  NoDup vs ->
  sweep (set_both x y step) i vs h
  = sweep (set_one "y" y step) i vs (sweep (set_one "x" x step) i vs h).
Proof.
  revert i h. induction vs as [|v vs IH]; intros i h Hnd; [done|].
  apply NoDup_cons in Hnd as [Hv Hnd]. cbn [sweep].
  rewrite IH by done. unfold set_both.
  rewrite sweep_set_one_store by done. by rewrite <- !set_one_unfold.
Qed.

Lemma sweep_set_one_field_other (key : string) (value step : Z) (vs : list loc)
  (i : nat) h l k :
  l ∉ vs -> field (sweep (set_one key value step) i vs h) l k = field h l k.
Proof. intros Hl. unfold field. by rewrite sweep_set_one_other. Qed.

(** After a loop over one component, the vector visited at index [i + j]
    holds the value computed for that index. *)
Lemma sweep_set_one_stepped (key : string) (value step : Z) (vs : list loc)
  (i j : nat) h v :
  NoDup vs -> vs !! j = Some v -> Forall (fun v => is_Some (h !! v)) vs ->
  field (sweep (set_one key value step) i vs h) v key
  = Some (VNum (value + Z.of_nat (i + j) * step)).
Proof.
  revert i j h. induction vs as [|v0 vs IH]; intros i j h Hnd Hj Hall; [done|].
  apply NoDup_cons in Hnd as [Hv0 Hnd]. apply Forall_cons in Hall as [Hsome Hall].
  cbn [sweep]. destruct j as [|j].
  - injection Hj as ->. rewrite Nat.add_0_r, sweep_set_one_field_other by done.
    unfold set_one. by apply field_store_eq.
  - cbn in Hj. replace (i + S j)%nat with (S i + j)%nat by lia.
    apply IH; [done..|]. eapply Forall_impl; [exact Hall|].
    intros v'. by rewrite set_one_is_Some.
Qed.

End StoreCommutes.

(** The loop of [setVelocityX] (key ["x"]) and of [setVelocityY] (key ["y"]). *)
Lemma run_set_one_loop (key : string) (base step : Z) (items : list value)
  (vs : list loc) (s : state) :
  key = "x" \/ key = "y" ->
  mapM (velocity_vector (heap s)) items = Some vs ->
  for_each (fun i =>
              item ← mret (default VUndefined (items !! i));
              body ← get item "body";
              velocity ← get body "velocity";
              put velocity key (VNum (base + Z.of_nat i * step)))
           (seq 0 (length items)) s
  = Some (tt, {| heap := sweep (set_one key base step) 0 vs (heap s);
                 trace := trace s |}).
Proof.
  intros Hkey Hvs.
  apply (run_sweep items
           (fun velocity i => put velocity key (VNum (base + Z.of_nat i * step)))
           (set_one key base step)); [| | |done|done].
  - intros v i s0 Hv. by apply run_put.
  - apply set_one_is_Some.
  - intros h v i l k Hx Hy. apply set_one_frame. by destruct Hkey as [-> | ->].
Qed.

(** The members keep their vectors through a loop over one component. *)
Lemma vectors_sweep_set_one (key : string) (base step : Z) (items : list value)
  (vs ws : list loc) (i : nat) (h : list obj) :
  key = "x" \/ key = "y" ->
  mapM (velocity_vector h) items = Some vs ->
  mapM (velocity_vector (sweep (set_one key base step) i ws h)) items = Some vs.
Proof.
  intros Hkey Hvs. apply mapM_Some. apply mapM_Some in Hvs.
  eapply Forall2_impl; [exact Hvs|]. intros item v <-.
  apply velocity_vector_frame.
  - apply sweep_is_Some, set_one_is_Some.
  - intros l k Hx Hy. apply sweep_set_one_frame. by destruct Hkey as [-> | ->].
Qed.

(** X1: [setVelocityY(value, step)] returns the group itself and sets the Y
    component of the velocity of the member at index [i] to
    [value + i * step]; the X components, every other property and every
    cell that is not the velocity vector of a member stay as they were, and
    no call leaves the class.  The values are integers that doubles hold
    exactly. *)
Theorem setVelocityY_steps_by_index
  (this : group) (value : Z) (step : option Z) (s : state) (vs : list loc) :
  mapM (velocity_vector (heap s)) (getChildren this) = Some vs ->
  NoDup vs ->
  exact_steps value (default 0 step) (length (getChildren this)) ->
  exists s',
    setVelocityY this value step s = Some (this, s') /\
    trace s' = trace s /\
    (forall (i : nat) item,
       getChildren this !! i = Some item ->
       exists v, velocity_vector (heap s') item = Some v /\
                 field (heap s') v "y" = Some (VNum (value + Z.of_nat i * default 0 step))) /\
    (forall l k, k <> "y" -> field (heap s') l k = field (heap s) l k) /\
    (forall l, l ∉ vs -> heap s' !! l = heap s !! l).
Proof.
  intros Hvs Hnd _. unfold setVelocityY, step_or_zero. cbv zeta.
  generalize (default 0 step) as st. intros st.
  eexists. split.
  - rewrite run_bind, (run_set_one_loop "y" value st _ vs) by (done || by right).
    by rewrite run_ret.
  - cbn [heap trace]. split; [done|]. split; [|split].
    + intros i item Hi. destruct (vectors_lookup _ _ _ _ _ Hvs Hi) as (v & Hv & Hvec).
      exists v. split.
      * pose proof (vectors_sweep_set_one "y" value st _ vs vs 0 _ (or_intror eq_refl) Hvs) as H.
        by destruct (vectors_lookup _ _ _ _ _ H Hi) as (v' & Hv' & ->); simplify_eq.
      * apply (sweep_set_one_stepped "y" value st vs 0 i); [done..|].
        by eapply vectors_allocated.
    + intros l k Hk. by apply sweep_set_one_frame.
    + intros l Hl. by apply sweep_set_one_other.
Qed.

Lemma setVelocityY_steps_by_index_witness :
  exact_steps 50 (-10) 3 /\
  exists s',
    setVelocityY fleet 50 (Some (-10)) fleet_state = Some (fleet, s') /\
    read_velocity (heap s') (VRef 0) = Some (VNum 1, VNum 50) /\
    read_velocity (heap s') (VRef 1) = Some (VNum 3, VNum 40) /\
    read_velocity (heap s') (VRef 2) = Some (VNum 5, VNum 30).
Proof.
  assert (Hy : exact_steps 50 (-10) 3) by (unfold exact_steps, exact; split; [lia|split; [lia|intros i Hi; lia]]).
  split; [exact Hy|].
  destruct (setVelocityY_steps_by_index fleet 50 (Some (-10)) fleet_state [6; 7; 8]%nat
              eq_refl ltac:(by apply (bool_decide_unpack _); vm_compute) Hy)
    as (s' & Hrun & _).
  exists s'. split; [exact Hrun|].
  vm_compute in Hrun. by injection Hrun as <-.
Defined.

(** X2: [setVelocityX(value, step)] with a step returns the group itself and
    sets the X component of the velocity of the member at index [i] to
    [value + i * step]; the Y components, every other property and every
    cell that is not the velocity vector of a member stay as they were.  The
    values are integers that doubles hold exactly. *)
Theorem setVelocityX_steps_by_index
  (this : group) (value : Z) (step : option Z) (s : state) (vs : list loc) :
  mapM (velocity_vector (heap s)) (getChildren this) = Some vs ->
  NoDup vs ->
  exact_steps value (default 0 step) (length (getChildren this)) ->
  exists s',
    setVelocityX this value step s = Some (this, s') /\
    trace s' = trace s /\
    (forall (i : nat) item,
       getChildren this !! i = Some item ->
       exists v, velocity_vector (heap s') item = Some v /\
                 field (heap s') v "x" = Some (VNum (value + Z.of_nat i * default 0 step))) /\
    (forall l k, k <> "x" -> field (heap s') l k = field (heap s) l k) /\
    (forall l, l ∉ vs -> heap s' !! l = heap s !! l).
Proof.
  intros Hvs Hnd _. unfold setVelocityX, step_or_zero. cbv zeta.
  generalize (default 0 step) as st. intros st.
  eexists. split.
  - rewrite run_bind, (run_set_one_loop "x" value st _ vs) by (done || by left).
    by rewrite run_ret.
  - cbn [heap trace]. split; [done|]. split; [|split].
    + intros i item Hi. destruct (vectors_lookup _ _ _ _ _ Hvs Hi) as (v & Hv & Hvec).
      exists v. split.
      * pose proof (vectors_sweep_set_one "x" value st _ vs vs 0 _ (or_introl eq_refl) Hvs) as H.
        by destruct (vectors_lookup _ _ _ _ _ H Hi) as (v' & Hv' & ->); simplify_eq.
      * apply (sweep_set_one_stepped "x" value st vs 0 i); [done..|].
        by eapply vectors_allocated.
    + intros l k Hk. by apply sweep_set_one_frame.
    + intros l Hl. by apply sweep_set_one_other.
Qed.

Lemma setVelocityX_steps_by_index_witness :
  exact_steps 100 7 3 /\
  exists s',
    setVelocityX fleet 100 (Some 7) fleet_state = Some (fleet, s') /\
    read_velocity (heap s') (VRef 0) = Some (VNum 100, VNum 2) /\
    read_velocity (heap s') (VRef 1) = Some (VNum 107, VNum 4) /\
    read_velocity (heap s') (VRef 2) = Some (VNum 114, VNum 6).
Proof.
  assert (Hx : exact_steps 100 7 3) by (unfold exact_steps, exact; split; [lia|split; [lia|intros i Hi; lia]]).
  split; [exact Hx|].
  destruct (setVelocityX_steps_by_index fleet 100 (Some 7) fleet_state [6; 7; 8]%nat
              eq_refl ltac:(by apply (bool_decide_unpack _); vm_compute) Hx)
    as (s' & Hrun & _).
  exists s'. split; [exact Hrun|].
  vm_compute in Hrun. by injection Hrun as <-.
Defined.

(** X3: [setVelocity(x, y, step)] leaves the state that [setVelocityX(x, step)]
    followed by [setVelocityY(y, step)] leaves. *)
Theorem setVelocity_is_setVelocityX_then_setVelocityY
  (this : group) (x y : Z) (step : option Z) (s : state) (vs : list loc) :
  mapM (velocity_vector (heap s)) (getChildren this) = Some vs ->
  NoDup vs ->
  exists s1 s2,
    setVelocityX this x step s = Some (this, s1) /\
    setVelocityY this y step s1 = Some (this, s2) /\
    setVelocity this x y step s = Some (this, s2).
Proof.
  intros Hvs Hnd. unfold setVelocity, setVelocityX, setVelocityY, step_or_zero. cbv zeta.
  generalize (default 0 step) as st. intros st.
  eexists _, _. split; [|split].
  - rewrite run_bind, (run_set_one_loop "x" x st _ vs) by (done || by left).
    by rewrite run_ret.
  - rewrite run_bind, (run_set_one_loop "y" y st _ vs); [by rewrite run_ret|by right|].
    cbn [heap]. apply vectors_sweep_set_one; [by left|done].
  - rewrite run_bind.
    rewrite (run_sweep (getChildren this)
               (fun velocity i => Vector2_set velocity (x + Z.of_nat i * st)
                                                       (y + Z.of_nat i * st))
               (set_both x y st) (run_Vector2_set x y st)
               (set_both_is_Some x y st) (set_both_frame x y st)
               (getChildren this) vs 0 s eq_refl Hvs).
    rewrite run_ret. cbn [heap trace]. by rewrite sweep_set_both_split.
Qed.

Lemma setVelocity_is_setVelocityX_then_setVelocityY_witness :
  exists s1 s2,
    setVelocityX fleet 10 (Some 5) fleet_state = Some (fleet, s1) /\
    setVelocityY fleet 20 (Some 5) s1 = Some (fleet, s2) /\
    setVelocity fleet 10 20 (Some 5) fleet_state = Some (fleet, s2).
Proof.
  exact (setVelocity_is_setVelocityX_then_setVelocityY fleet 10 20 (Some 5) fleet_state
           [6; 7; 8]%nat eq_refl ltac:(by apply (bool_decide_unpack _); vm_compute)).
Defined.

Section Failures.

(** A read leaves the state alone. *)
Lemma get_state (v : value) (k : string) (r : value) (s s' : state) :
  get v k s = Some (r, s') -> s' = s.
Proof.
  unfold get. destruct v; try done; try (by intros [= _ ->]).
  destruct (heap s !! l); [by intros [= _ ->]|done].
Qed.

(** An assignment to the property [k] allocates nothing, frees nothing and
    leaves the other properties alone. *)
Lemma put_keeps (v : value) (k : string) (x : value) (s s' : state) :
  put v k x s = Some (tt, s') ->
  (forall l, is_Some (heap s' !! l) <-> is_Some (heap s !! l)) /\
  (forall l k', k' <> k -> field (heap s') l k' = field (heap s) l k').
Proof.
  unfold put. destruct v; try done; try (by intros [= <-]).
  destruct (heap s !! l) as [o|] eqn:Ho; [|done]. intros [= <-]. cbn [heap].
  change (<[l:=set_props o (assign_prop k x (props o))]> (heap s))
    with (match Some o with
          | Some o => <[l:=set_props o (assign_prop k x (props o))]> (heap s)
          | None => heap s
          end).
  rewrite <- Ho. fold (store (heap s) l k x). split.
  - intros l'. apply store_is_Some.
  - intros l' k' Hk. apply field_store_ne. right. congruence.
Qed.

Variable items : list value.
Variable write : value -> nat -> M unit.

Hypothesis write_undefined : forall (i : nat) (s : state), write VUndefined i s = None.
Hypothesis write_keeps : forall (v : value) (i : nat) (s s' : state),
  write v i s = Some (tt, s') ->
  (forall l, is_Some (heap s' !! l) <-> is_Some (heap s !! l)) /\
  (forall l k, k <> "x" -> k <> "y" -> field (heap s') l k = field (heap s) l k).

(** A loop that reaches a member without a body throws. *)
Lemma loop_throws_without_body (j e : nat) (n i : nat) (s : state) :
  items !! j = Some (VRef e) ->
  (i <= j < i + n)%nat ->
  is_Some (heap s !! e) ->
  truthy (default VUndefined (field (heap s) e "body")) = false ->
  for_each (fun i =>
              item ← mret (default VUndefined (items !! i));
              body ← get item "body";
              velocity ← get body "velocity";
              write velocity i)
           (seq i n) s
  = None.
Proof.
  intros Hj. revert i s. induction n as [|n IH]; intros i s Hrange He Hbody; [lia|].
  cbn [seq for_each]. rewrite run_bind.
  destruct (decide (i = j)) as [->|Hne].
  - rewrite run_bind, run_ret, Hj. cbn [default from_option id].
    destruct He as [o Ho]. rewrite run_bind, (run_get _ _ _ _ Ho).
    unfold field in Hbody. rewrite Ho in Hbody. cbn [mbind option_bind] in Hbody.
    fold (prop_get (props o) "body") in Hbody.
    destruct (prop_get (props o) "body") as [| |b|z|str|f|l]; try done;
      rewrite run_bind; cbn [get]; by rewrite ?write_undefined.
  - destruct ((item ← mret (default VUndefined (items !! i));
               body ← get item "body";
               velocity ← get body "velocity";
               write velocity i) s) as [[[] s']|] eqn:Hstep; [|done].
    rewrite run_bind, run_ret, run_bind in Hstep.
    destruct (get (default VUndefined (items !! i)) "body" s) as [[b s0]|] eqn:Hg1; [|done].
    apply get_state in Hg1 as ->. rewrite run_bind in Hstep.
    destruct (get b "velocity" s) as [[vel s0]|] eqn:Hg2; [|done].
    apply get_state in Hg2 as ->.
    apply write_keeps in Hstep as [Hsome Hframe].
    apply IH; [lia|by apply Hsome|]. by rewrite Hframe.
Qed.

End Failures.

(** X4: a bulk velocity setter throws when a member has no body: reading
    [items[i].body.velocity] fails, whatever the values and the step. *)
Theorem velocity_setters_throw_without_body
  (this : group) (x y : Z) (step : option Z) (s : state) (j e : nat) :
  getChildren this !! j = Some (VRef e) ->
  is_Some (heap s !! e) ->
  truthy (default VUndefined (field (heap s) e "body")) = false ->
  setVelocity this x y step s = None /\
  setVelocityX this x step s = None /\
  setVelocityY this y step s = None.
Proof.
  intros Hj He Hbody.
  assert (Hrange : (0 <= j < 0 + length (getChildren this))%nat).
  { apply lookup_lt_Some in Hj. lia. }
  assert (Hput : forall (k : string) (f : nat -> Z) (v : value) (i : nat) (s0 s' : state),
            k = "x" \/ k = "y" ->
            put v k (VNum (f i)) s0 = Some (tt, s') ->
            (forall l, is_Some (heap s' !! l) <-> is_Some (heap s0 !! l)) /\
            (forall l k', k' <> "x" -> k' <> "y" ->
               field (heap s') l k' = field (heap s0) l k')).
  { intros k f v i s0 s' Hk Hw. apply put_keeps in Hw as [Hs Hf]. split; [done|].
    intros l' k' Hx Hy. apply Hf. by destruct Hk as [-> | ->]. }
  unfold setVelocity, setVelocityX, setVelocityY. cbv zeta.
  split; [|split]; rewrite run_bind.
  - rewrite (loop_throws_without_body (getChildren this)
               (fun velocity i =>
                  Vector2_set velocity (x + Z.of_nat i * step_or_zero step)
                                       (y + Z.of_nat i * step_or_zero step))
               (fun _ _ => eq_refl)) with (j := j) (e := e); [done| |done..].
    intros v i s0 s' Hw. destruct v; try done. unfold Vector2_set in Hw.
    rewrite run_bind in Hw.
    destruct (put (VRef l) "x" (VNum (x + Z.of_nat i * step_or_zero step)) s0)
      as [[[] s1]|] eqn:H1; [|done].
    apply put_keeps in H1 as [Hs1 Hf1]. apply put_keeps in Hw as [Hs2 Hf2].
    split; [intros l'; by rewrite Hs2, Hs1|].
    intros l' k Hx Hy. by rewrite Hf2, Hf1.
  - rewrite (loop_throws_without_body (getChildren this)
               (fun velocity i => put velocity "x" (VNum (x + Z.of_nat i * step_or_zero step)))
               (fun _ _ => eq_refl)) with (j := j) (e := e); [done| |done..].
    intros v i s0 s'. apply (Hput "x" (fun i => x + Z.of_nat i * step_or_zero step)). by left.
  - rewrite (loop_throws_without_body (getChildren this)
               (fun velocity i => put velocity "y" (VNum (y + Z.of_nat i * step_or_zero step)))
               (fun _ _ => eq_refl)) with (j := j) (e := e); [done| |done..].
    intros v i s0 s'. apply (Hput "y" (fun i => y + Z.of_nat i * step_or_zero step)). by right.
Qed.

Lemma velocity_setters_throw_without_body_witness :
  setVelocity (mkGroup VNull DYNAMIC_BODY [] "PhysicsGroup" [VRef 1; VRef 0])
              10 20 None sample_state = None /\
  setVelocityX (mkGroup VNull DYNAMIC_BODY [] "PhysicsGroup" [VRef 1; VRef 0])
               10 None sample_state = None /\
  setVelocityY (mkGroup VNull DYNAMIC_BODY [] "PhysicsGroup" [VRef 1; VRef 0])
               20 None sample_state = None.
Proof.
  exact (velocity_setters_throw_without_body
           (mkGroup VNull DYNAMIC_BODY [] "PhysicsGroup" [VRef 1; VRef 0])
           10 20 None sample_state 1 0 eq_refl (ex_intro _ _ eq_refl) eq_refl).
Defined.

(** ** More on the hooks *)

Section HooksCompose.

(** In a table whose entries hold no value every key reads undefined. *)
Lemma prop_get_all_undefined (table : list (string * value)) (key : string) :
  Forall (fun kv => kv.2 = VUndefined) table -> prop_get table key = VUndefined.
Proof.
  unfold prop_get. induction table as [|[k v] table IH]; intros Hall; [done|].
  apply Forall_cons in Hall as [Hv Hall]. cbn [lookup_prop].
  destruct (String.eqb key k); [exact Hv|by apply IH].
Qed.

(** The loop of the creation hook makes no call for such a table, whatever
    the body is. *)
Lemma run_defaults_loop_all_undefined (table : list (string * value))
  (body : value) (keys : list string) (s : state) :
  Forall (fun kv => kv.2 = VUndefined) table ->
  for_each (visit_default table body) keys s = Some (tt, s).
Proof.
  intros Hall. induction keys as [|key keys IH]; [done|].
  cbn [for_each]. rewrite run_bind. unfold visit_default at 1. cbv zeta.
  by rewrite (prop_get_all_undefined _ _ Hall).
Qed.

Lemma run_removeCallbackHandler (this : group) (c : loc) (o : obj) (s : state) :
  heap s !! c = Some o ->
  is_World (heap s) (world this) = true ->
  removeCallbackHandler this (VRef c) s
  = Some (VUndefined,
          if truthy (prop_get (props o) "body")
          then {| heap := heap s; trace := trace s ++ [DisableBody (VRef c)] |}
          else s).
Proof.
  intros Hc Hworld. unfold removeCallbackHandler.
  rewrite run_bind, (run_get _ _ _ _ Hc), run_bind.
  destruct (truthy (prop_get (props o) "body")); [|done].
  by rewrite (run_World_call _ _ _ Hworld).
Qed.

(** An assignment does not change what is a World. *)
Lemma is_World_store (h : list obj) (l : loc) (k : string) (x w : value) :
  is_World (store h l k x) w = is_World h w.
Proof.
  destruct w as [| | | | | |l']; try done. unfold is_World, store.
  destruct (h !! l) as [o|] eqn:Ho; [|done].
  destruct (decide (l = l')) as [<-|Hne].
  - rewrite list_lookup_insert_eq by (by eapply lookup_lt_Some). by rewrite Ho.
  - by rewrite list_lookup_insert_ne.
Qed.

Lemma is_World_setter_store (b : loc) (entries : list (string * value))
  (h : list obj) (w : value) :
  is_World (foldl (setter_store b) h entries) w = is_World h w.
Proof.
  revert h. induction entries as [|kv entries IH]; intros h; [done|].
  cbn [foldl]. rewrite IH. unfold setter_store.
  destruct (Body_slot Body_setters kv.1); [apply is_World_store|done].
Qed.

Lemma is_World_attached (h : list obj) (c : loc) (w : value) :
  is_World h w = true -> is_World (attached h c) w = true.
Proof.
  intros Hw. unfold attached. rewrite is_World_store.
  destruct w as [| | | | | |l]; try done. unfold is_World in *.
  destruct (h !! l) as [o|] eqn:Ho; [|done].
  by rewrite <- app_assoc, (lookup_app_l_Some _ _ _ _ Ho).
Qed.

(** The creation hook keeps the World a World. *)
Lemma createCallbackHandler_keeps_World (this : group) (c : loc) (o : obj)
  (s s1 : state) (r w : value) :
  heap s !! c = Some o ->
  table_ok (defaults this) ->
  hook_ready this (heap s) o ->
  createCallbackHandler this (VRef c) s = Some (r, s1) ->
  is_World (heap s) w = true -> is_World (heap s1) w = true.
Proof.
  intros Hc Hok [[Hno Hworld]|[b [Hbody Hb]]] Hrun Hw.
  - rewrite (run_createCallbackHandler_fresh this c o s Hc Hok Hworld Hno) in Hrun.
    injection Hrun as <- <-. cbn [heap].
    rewrite is_World_setter_store. by apply is_World_attached.
  - rewrite (run_createCallbackHandler_bodied this c o s Hc Hok b Hbody Hb) in Hrun.
    injection Hrun as <- <-. cbn [heap]. by rewrite is_World_setter_store.
Qed.

End HooksCompose.

(** X5: when no entry of [this.defaults] holds a value (the table of a group
    built without physics settings, or [defaults] set to an empty object),
    the creation hook changes nothing on a child that has a body, and on a
    child without one it makes the attach call, [this.world] being a World,
    and no other call. *)
Theorem createCallbackHandler_without_defaults
  (this : group) (c : loc) (o : obj) (s : state) :
  Forall (fun kv => kv.2 = VUndefined) (defaults this) ->
  heap s !! c = Some o ->
  (truthy (prop_get (props o) "body") = true ->
     createCallbackHandler this (VRef c) s = Some (VUndefined, s)) /\
  (truthy (prop_get (props o) "body") = false ->
     is_World (heap s) (world this) = true ->
     createCallbackHandler this (VRef c) s
     = Some (VUndefined,
             {| heap := attached (heap s) c;
                trace := trace s ++ [EnableBody (VRef c) DYNAMIC_BODY] |})).
Proof.
  intros Hall Hc. unfold createCallbackHandler. split; [intros Hbody|intros Hbody Hworld].
  - rewrite run_bind, (run_get _ _ _ _ Hc), Hbody. cbn [negb].
    rewrite run_bind, run_ret, run_bind, (run_get _ _ _ _ Hc), run_bind.
    by rewrite run_defaults_loop_all_undefined.
  - rewrite run_bind, (run_get _ _ _ _ Hc), Hbody. cbn [negb].
    rewrite run_bind, (run_World_call _ _ _ Hworld), (run_enableBody c o s Hc), run_bind.
    destruct (get (VRef c) "body" _) as [[b s1]|] eqn:Hget.
    + apply get_state in Hget as ->. rewrite run_bind.
      by rewrite run_defaults_loop_all_undefined.
    + exfalso. pose proof (attached_body c o s Hc) as Hb. unfold field in Hb.
      unfold get in Hget. cbn [heap] in Hget.
      by destruct (attached (heap s) c !! c).
Qed.

Lemma createCallbackHandler_without_defaults_witness :
  is_World world_heap (world bare_group) = true /\
  createCallbackHandler bare_group (VRef 1) world_state = Some (VUndefined, world_state) /\
  exists s',
    createCallbackHandler bare_group (VRef 0) world_state = Some (VUndefined, s') /\
    trace s' = [EnableBody (VRef 0) DYNAMIC_BODY].
Proof.
  split; [reflexivity|]. split.
  - exact (proj1 (createCallbackHandler_without_defaults bare_group 1 _ world_state
                    (Forall_nil_2 _) eq_refl) eq_refl).
  - eexists. split.
    + exact (proj2 (createCallbackHandler_without_defaults bare_group 0 _ world_state
                      (Forall_nil_2 _) eq_refl) eq_refl eq_refl).
    + reflexivity.
Defined.

(** X6: for a group of a World, the removal hook after the creation hook on
    the same child makes exactly one detach call, after the attach call (if
    the child had no body) and the setter calls, and leaves the store as the
    creation hook left it: the child keeps its body. *)
Theorem removeCallbackHandler_after_createCallbackHandler
  (this : group) (c : loc) (o : obj) (s : state) :
  heap s !! c = Some o ->
  table_ok (defaults this) ->
  is_World (heap s) (world this) = true ->
  (no_body o \/ exists b, has_body (heap s) o b) ->
  exists s1 s2 b,
    createCallbackHandler this (VRef c) s = Some (VUndefined, s1) /\
    removeCallbackHandler this (VRef c) s1 = Some (VUndefined, s2) /\
    trace s2 = trace s1 ++ [DisableBody (VRef c)] /\
    attach_calls (trace s2)
    = (attach_calls (trace s)
       + (if truthy (prop_get (props o) "body") then 0 else 1))%nat /\
    detach_calls (trace s2) = S (detach_calls (trace s)) /\
    heap s2 = heap s1 /\
    field (heap s2) c "body" = Some (VRef b).
Proof.
  intros Hc Hok Hworld Hbody.
  assert (Hready : hook_ready this (heap s) o).
  { destruct Hbody as [Hno|Hb]; [left|right]; done. }
  destruct (createCallbackHandler_attaches_or_not this c o s Hc Hok Hready)
    as (s1 & b & Hrun & Hfield & Htrace).
  pose proof (createCallbackHandler_keeps_World _ _ _ _ _ _ _ Hc Hok Hready Hrun Hworld)
    as Hworld1.
  unfold field in Hfield. destruct (heap s1 !! c) as [o1|] eqn:Hc1; [|done].
  cbn in Hfield.
  assert (Hb1 : prop_get (props o1) "body" = VRef b) by (unfold prop_get; by rewrite Hfield).
  eexists s1, _, b. split; [exact Hrun|].
  split; [by rewrite (run_removeCallbackHandler this c o1 s1 Hc1 Hworld1), Hb1|].
  cbn [heap trace truthy]. split; [done|]. split; [|split; [|split; [done|]]].
  - rewrite attach_calls_app, Htrace, !attach_calls_app, attach_calls_setter_calls.
    destruct (truthy (prop_get (props o) "body")); unfold attach_calls; simpl; lia.
  - rewrite detach_calls_app, Htrace, !detach_calls_app.
    assert (Hset : detach_calls (setter_calls b (defaults this)) = 0%nat).
    { unfold setter_calls. by induction (defined_entries (defaults this)). }
    rewrite Hset.
    destruct (truthy (prop_get (props o) "body")); unfold detach_calls; simpl; lia.
  - unfold field. by rewrite Hc1.
Qed.

Lemma removeCallbackHandler_after_createCallbackHandler_witness :
  is_World world_heap (world world_group) = true /\
  exists s1 s2,
    createCallbackHandler world_group (VRef 0) world_state = Some (VUndefined, s1) /\
    removeCallbackHandler world_group (VRef 0) s1 = Some (VUndefined, s2) /\
    attach_calls (trace s2) = 1%nat /\ detach_calls (trace s2) = 1%nat.
Proof.
  split; [reflexivity|].
  destruct (removeCallbackHandler_after_createCallbackHandler
              world_group 0 _ world_state
              (eq_refl : heap world_state !! 0%nat = Some _)
              (PhysicsGroup_defaults_ok sample_heap (VRef 5))
              eq_refl (or_introl eq_refl))
    as (s1 & s2 & b & Hrun1 & Hrun2 & _ & Ha & Hd & _).
  exists s1, s2. by repeat split.
Defined.

(** ** More on the constructor *)

Section PlainObjects.

Implicit Types (h : list obj) (l : loc) (k : string) (v x : value).

Lemma IsPlainObject_ref h v : IsPlainObject h v = true -> exists l, v = VRef l.
Proof. destruct v; try done. by eexists. Qed.

(** An assignment does not change what is a configuration record. *)
Lemma IsPlainObject_store h l k x v :
  IsPlainObject (store h l k x) v = IsPlainObject h v.
Proof.
  destruct v as [| | | | | |l']; try done. unfold IsPlainObject, store.
  destruct (h !! l) as [o|] eqn:Ho; [|done].
  destruct (decide (l = l')) as [<-|Hne].
  - rewrite list_lookup_insert_eq by (by eapply lookup_lt_Some). by rewrite Ho.
  - by rewrite list_lookup_insert_ne.
Qed.

Lemma IsPlainObject_hooked h l v : IsPlainObject (hooked h l) v = IsPlainObject h v.
Proof. unfold hooked. by rewrite !IsPlainObject_store. Qed.

Lemma IsPlainObject_classed h l v : IsPlainObject (classed h l) v = IsPlainObject h v.
Proof. unfold classed. by rewrite IsPlainObject_store. Qed.

Lemma IsPlainObject_new h : IsPlainObject (h ++ [hooks_literal]) (VRef (length h)) = true.
Proof. unfold IsPlainObject. by rewrite lookup_app_r, Nat.sub_diag. Qed.

Lemma has_hooks_new h : has_hooks (h ++ [hooks_literal]) (length h).
Proof. unfold has_hooks, field. by rewrite lookup_app_r, Nat.sub_diag. Qed.

Lemma GetFastValue_defined h v k x : x <> VUndefined -> GetFastValue h v k x <> VUndefined.
Proof.
  intros Hx. unfold GetFastValue. destruct v as [| | | | | |l]; try done.
  destruct (field h l k) as [y|]; [|done]. by destruct y.
Qed.

(** What lines 76-77 do to one element of the array, when they do not throw. *)
Lemma inject_hooks_inv v (s s' : state) :
  inject_hooks v s = Some (tt, s') ->
  trace s' = trace s /\
  (forall l, has_hooks (heap s) l -> has_hooks (heap s') l) /\
  (forall l, v = VRef l -> has_hooks (heap s') l) /\
  (forall y, IsPlainObject (heap s') y = IsPlainObject (heap s) y).
Proof.
  unfold inject_hooks. rewrite run_bind.
  destruct v as [| |b|z|str|f|l]; [done|done|..].
  1-4: cbn; intros [= <-]; (split; [done|]); (split; [done|]); (split; [|done]);
       by intros l [=].
  destruct (heap s !! l) as [o|] eqn:Ho.
  - rewrite run_put by eauto. rewrite run_put by (apply store_is_Some; eauto).
    intros [= <-]. cbn [heap trace]. fold (hooked (heap s) l).
    split; [done|]. split; [intros l'; apply hooked_keeps_hooks|].
    split; [intros l' [= <-]; apply hooked_has_hooks; eauto|].
    intros y. apply IsPlainObject_hooked.
  - unfold put at 1. by rewrite Ho.
Qed.

Lemma for_each_inject_inv (vs : list value) (s s' : state) :
  for_each inject_hooks vs s = Some (tt, s') ->
  trace s' = trace s /\
  (forall l, has_hooks (heap s) l -> has_hooks (heap s') l) /\
  (forall l, VRef l ∈ vs -> has_hooks (heap s') l) /\
  (forall y, IsPlainObject (heap s') y = IsPlainObject (heap s) y).
Proof.
  revert s. induction vs as [|v vs IH]; intros s.
  - intros [= <-]. split; [done|]. split; [done|]. split; [|done].
    intros l Hin. by apply elem_of_nil in Hin.
  - cbn [for_each]. rewrite run_bind.
    destruct (inject_hooks v s) as [[[] s1]|] eqn:Hv; [|done].
    apply inject_hooks_inv in Hv as (Ht1 & Hk1 & Hv1 & Hp1).
    intros (Ht & Hk & Hin & Hp)%IH.
    split; [congruence|]. split; [intros l Hl; by apply Hk, Hk1|].
    split; [|intros y; by rewrite Hp, Hp1].
    intros l [Heq|Hl]%elem_of_cons; [by apply Hk, Hv1|by apply Hin].
Qed.

(** The [forEach] of lines 74-78 throws on an element that is [undefined]
    or [null]. *)
Lemma for_each_inject_throws (vs : list value) (v : value) (s : state) :
  v ∈ vs -> v = VUndefined \/ v = VNull -> for_each inject_hooks vs s = None.
Proof.
  intros Hin Hv. revert s. induction vs as [|v0 vs IH]; intros s.
  - by apply elem_of_nil in Hin.
  - cbn [for_each]. rewrite run_bind. apply elem_of_cons in Hin as [<-|Hin].
    + by destruct Hv as [-> | ->].
    + destruct (inject_hooks v0 s) as [[[] s1]|]; [by apply IH|done].
Qed.

End PlainObjects.

Section ConstructorInversion.

(** Whatever the arguments, when lines 51-89 return, the configuration is
    a plain record of the store that holds the two hooks, and [children] is
    passed on as it came or replaced by [null]. *)
Lemma PhysicsGroup_arguments_inv (children config children' config' : value)
  (s s1 : state) :
  PhysicsGroup_arguments children config s = Some ((children', config'), s1) ->
  trace s1 = trace s /\
  (children' = children \/ children' = VNull) /\
  exists l, config' = VRef l /\ IsPlainObject (heap s1) (VRef l) = true /\
            has_hooks (heap s1) l.
Proof.
  unfold PhysicsGroup_arguments.
  assert (Hnew : (config0 ← new_object hooks_literal; mret (children, config0)) s
                 = Some ((children', config'), s1) ->
                 trace s1 = trace s /\
                 (children' = children \/ children' = VNull) /\
                 exists l, config' = VRef l /\ IsPlainObject (heap s1) (VRef l) = true /\
                           has_hooks (heap s1) l).
  { rewrite run_bind. cbn [new_object]. rewrite run_ret. intros [= <- <- <-].
    cbn [heap trace]. split; [done|]. split; [by left|]. eexists. split; [done|].
    split; [apply IsPlainObject_new|apply has_hooks_new]. }
  destruct (negb (truthy children) && negb (truthy config)); [exact Hnew|].
  destruct (IsPlainObject (heap s) children) eqn:Hplain.
  - clear Hnew. destruct (IsPlainObject_ref _ _ Hplain) as [l ->].
    rewrite run_bind, run_inject_hooks by (by apply IsPlainObject_is_Some).
    rewrite run_ret. intros [= <- <- <-]. cbn [heap trace].
    split; [done|]. split; [by right|]. exists l. split; [done|].
    split; [by rewrite IsPlainObject_hooked|].
    by apply hooked_has_hooks, IsPlainObject_is_Some.
  - destruct (isArray (heap s) children
              && IsPlainObject (heap s) (index (heap s) children 0)) eqn:Harr;
      [clear Hnew|exact Hnew].
    apply andb_prop in Harr as [Harr Hfirst].
    destruct (IsPlainObject_ref _ _ Hfirst) as [l0 Hl0].
    rewrite run_bind.
    destruct (for_each inject_hooks (array_elems (heap s) children) s)
      as [[[] s2]|] eqn:Hloop; [|done].
    rewrite run_ret. intros [= <- <- <-].
    apply for_each_inject_inv in Hloop as (Ht & _ & Hin & Hp).
    split; [done|]. split; [by right|]. exists l0. split; [done|].
    split; [by rewrite Hp, <- Hl0|]. apply Hin.
    unfold index, array_elems in *. destruct children as [| | | | | |a]; try done.
    destruct (heap s !! a) as [o|]; [|done].
    destruct (elems o) as [|v vs]; [done|]. cbn in Hl0. subst v. left.
Qed.

(** The value of the [config] argument plays no part in lines 51-89. *)
Lemma PhysicsGroup_arguments_config (children config config' : value) (s : state) :
  PhysicsGroup_arguments children config s = PhysicsGroup_arguments children config' s.
Proof.
  unfold PhysicsGroup_arguments.
  destruct children as [| |b|z|str|f|l]; cbn [truthy IsPlainObject isArray negb andb];
    try done;
    repeat match goal with |- context [if ?c then _ else _] => destruct c end; done.
Qed.

End ConstructorInversion.

Section ConstructorAgain.

Variables (w sc : value).

(** The defaults table depends on the 25 fields it reads, not on the hooks
    and the [classType] that the constructor writes. *)
Lemma PhysicsGroup_defaults_ext (h h' : list obj) (l : loc) :
  (forall k, k <> "internalCreateCallback" -> k <> "internalRemoveCallback" ->
             k <> "classType" -> field h' l k = field h l k) ->
  PhysicsGroup_defaults h' (VRef l) = PhysicsGroup_defaults h (VRef l).
Proof.
  intros Hf. unfold PhysicsGroup_defaults, GetFastValue.
  by rewrite !Hf by done.
Qed.

(** The constructor after lines 53-56 or 85-88 made a new record. *)
Lemma run_PhysicsGroup_new (children config : value) (s : state) :
  PhysicsGroup_arguments children config s
  = Some ((children, VRef (length (heap s))),
          {| heap := heap s ++ [hooks_literal]; trace := trace s |}) ->
  PhysicsGroup w sc children config s
  = Some ({| world := w;
             physicsType := DYNAMIC_BODY;
             defaults := map (fun p => (p.1, VUndefined)) defaults_fields;
             type := "PhysicsGroup";
             children := [] |},
          {| heap := heap s
                     ++ [Obj PlainObject
                           [ ("internalCreateCallback", VFun createCallbackHandlerRef);
                             ("internalRemoveCallback", VFun removeCallbackHandlerRef);
                             ("classType", VFun ArcadeSprite) ] []];
             trace := trace s ++ [GroupCall sc children (VRef (length (heap s)))] |}).
Proof.
  intros Hargs.
  rewrite (run_PhysicsGroup w sc _ _ _ _ _ _ Hargs).
  - cbn [heap trace].
    assert (Hnew : classed (heap s ++ [hooks_literal]) (length (heap s))
                   = heap s ++ [Obj PlainObject
                      [ ("internalCreateCallback", VFun createCallbackHandlerRef);
                        ("internalRemoveCallback", VFun removeCallbackHandlerRef);
                        ("classType", VFun ArcadeSprite) ] []]).
    { unfold classed, GetFastValue, field, store.
      rewrite lookup_app_r, Nat.sub_diag by lia. cbn.
      rewrite insert_app_r_alt, Nat.sub_diag by lia. done. }
    rewrite Hnew. do 2 f_equal.
    unfold PhysicsGroup_defaults, GetFastValue, field.
    rewrite lookup_app_r, Nat.sub_diag by lia. cbn. by f_equal.
  - cbn [heap]. rewrite lookup_app_r, Nat.sub_diag by lia. by eexists.
Qed.

End ConstructorAgain.

(** X7: whatever the arguments, when the constructor returns it has called
    the base constructor exactly once, with [children] as it came or [null],
    and with a plain record that holds both hooks and a defined [classType];
    the group has the world it was given, the physics type DYNAMIC_BODY, the
    type 'PhysicsGroup' and a defaults table read from that record. *)
Theorem PhysicsGroup_always_passes_hooked_record
  (w sc children config : value) (s s' : state) (g : group) :
  PhysicsGroup w sc children config s = Some (g, s') ->
  exists children' l,
    trace s' = trace s ++ [GroupCall sc children' (VRef l)] /\
    (children' = children \/ children' = VNull) /\
    IsPlainObject (heap s') (VRef l) = true /\
    has_hooks (heap s') l /\
    (exists c, field (heap s') l "classType" = Some c /\ c <> VUndefined) /\
    world g = w /\ physicsType g = DYNAMIC_BODY /\ type g = "PhysicsGroup" /\
    defaults g = PhysicsGroup_defaults (heap s') (VRef l) /\
    table_ok (defaults g).
Proof.
  intros Hrun.
  destruct (PhysicsGroup_arguments children config s) as [[[ch' cfg] s1]|] eqn:Hargs.
  - destruct (PhysicsGroup_arguments_inv _ _ _ _ _ _ Hargs)
      as (Ht & Hch & l & -> & Hplain & Hhooks).
    pose proof (IsPlainObject_is_Some _ _ Hplain) as Hl.
    rewrite (run_PhysicsGroup w sc _ _ _ _ _ _ Hargs Hl) in Hrun.
    injection Hrun as <- <-. cbn [heap trace world physicsType type defaults].
    exists ch', l. rewrite Ht. split; [done|]. split; [done|].
    split; [by rewrite IsPlainObject_classed|].
    split; [by apply classed_has_hooks|]. split.
    + eexists. split; [by apply field_store_eq|]. by apply GetFastValue_defined.
    + repeat (split; [done|]). apply PhysicsGroup_defaults_ok.
  - unfold PhysicsGroup in Hrun. rewrite run_bind, Hargs in Hrun. done.
Qed.

Lemma PhysicsGroup_always_passes_hooked_record_witness :
  exists g s',
    PhysicsGroup (VStr "world") (VStr "scene") (VRef 8) (VNum 7) sample_state = Some (g, s') /\
    trace s' = [GroupCall (VStr "scene") VNull (VRef 5)] /\
    has_hooks (heap s') 5 /\ world g = VStr "world".
Proof.
  destruct (PhysicsGroup (VStr "world") (VStr "scene") (VRef 8) (VNum 7) sample_state)
    as [[g s']|] eqn:Hrun; [|by vm_compute in Hrun].
  exists g, s'. split; [done|].
  destruct (PhysicsGroup_always_passes_hooked_record _ _ _ _ _ _ _ Hrun)
    as (ch' & l & Htrace & _ & _ & Hhooks & _ & Hw & _).
  vm_compute in Hrun. injection Hrun as <- <-.
  cbn [trace app] in Htrace. injection Htrace as <- <-. by repeat split.
Defined.

Lemma hooked_other h l l' : l <> l' -> hooked h l !! l' = h !! l'.
Proof. intros Hne. unfold hooked. by rewrite !store_other. Qed.

Lemma foldl_hooked_other (ls : list loc) h l :
  l ∉ ls -> foldl hooked h ls !! l = h !! l.
Proof.
  revert h. induction ls as [|l0 ls IH]; intros h Hl; [done|].
  apply not_elem_of_cons in Hl as [Hne Hl]. cbn [foldl].
  rewrite IH by done. by apply hooked_other.
Qed.

(** X8: when [children] is a configuration record, or an array of them, the
    defaults table is read from the first record as the caller supplied it
    and from no other record. The construction allocates nothing and writes
    to the supplied records only: every other object is left as it was, and
    on the supplied records no property changes apart from the two hooks of
    each and the [classType] of the first. *)
Theorem PhysicsGroup_defaults_come_from_first_record
  (w sc children config : value) (ls : list loc) (s : state) :
  supplies_records (heap s) children ls ->
  exists g s' l0,
    head ls = Some l0 /\
    PhysicsGroup w sc children config s = Some (g, s') /\
    defaults g = PhysicsGroup_defaults (heap s) (VRef l0) /\
    length (heap s') = length (heap s) /\
    (forall l, l ∉ ls -> heap s' !! l = heap s !! l) /\
    (forall l k,
       k <> "internalCreateCallback" -> k <> "internalRemoveCallback" ->
       k <> "classType" \/ l <> l0 ->
       field (heap s') l k = field (heap s) l k).
Proof.
  intros [l Hplain | a o ls' Ha Hkind Helems Hne Hall].
  - pose proof (IsPlainObject_is_Some _ _ Hplain) as Hl.
    eexists _, _, l. split; [done|].
    split; [eapply (run_PhysicsGroup w sc); [by apply run_arguments_record|]|].
    { cbn [heap]. by apply hooked_is_Some. }
    cbn [heap trace defaults].
    assert (Hframe : forall l' k,
              k <> "internalCreateCallback" -> k <> "internalRemoveCallback" ->
              k <> "classType" \/ l' <> l ->
              field (classed (hooked (heap s) l) l) l' k = field (heap s) l' k).
    { intros l' k H1 H2 H3. unfold classed.
      rewrite field_store_ne by (destruct H3; [right|left]; congruence).
      by apply hooked_field_other. }
    split; [apply PhysicsGroup_defaults_ext; intros k H1 H2 H3; apply Hframe; auto|].
    split; [unfold classed; by rewrite length_store, hooked_length|].
    split; [|exact Hframe].
    intros l' Hl'. apply not_elem_of_cons in Hl' as [Hne _].
    unfold classed. rewrite store_other by done. by apply hooked_other.
  - destruct ls' as [|l0 ls']; [done|].
    pose proof (IsPlainObject_is_Some _ _ (Forall_inv Hall)) as Hl0.
    eexists _, _, l0. split; [done|].
    split; [eapply (run_PhysicsGroup w sc); [by eapply run_arguments_records|]|].
    { cbn [heap]. by apply foldl_hooked_is_Some. }
    cbn [heap trace defaults].
    assert (Hframe : forall l' k,
              k <> "internalCreateCallback" -> k <> "internalRemoveCallback" ->
              k <> "classType" \/ l' <> l0 ->
              field (classed (foldl hooked (heap s) (l0 :: ls')) l0) l' k
              = field (heap s) l' k).
    { intros l' k H1 H2 H3. unfold classed.
      rewrite field_store_ne by (destruct H3; [right|left]; congruence).
      by apply foldl_hooked_field_other. }
    split; [apply PhysicsGroup_defaults_ext; intros k H1 H2 H3; apply Hframe; auto|].
    split; [unfold classed; by rewrite length_store, foldl_hooked_length|].
    split; [|exact Hframe].
    intros l' Hl'. pose proof Hl' as Hl''. apply not_elem_of_cons in Hl'' as [Hne0 _].
    unfold classed. rewrite store_other by done. by apply foldl_hooked_other.
Qed.

Lemma PhysicsGroup_defaults_come_from_first_record_witness :
  field sample_heap 7 "mass" = Some (VNum 3) /\
  exists g s',
    PhysicsGroup VNull VNull (VRef 8) VUndefined sample_state = Some (g, s') /\
    prop_get (defaults g) "setMass" = VUndefined /\
    prop_get (defaults g) "setVelocityX" = VNum 5 /\
    length (heap s') = 9%nat /\
    heap s' !! 8%nat = sample_heap !! 8%nat /\
    field (heap s') 7 "classType" = Some (VFun (OtherFunction 1)).
Proof.
  split; [reflexivity|].
  assert (Hrec : supplies_records (heap sample_state) (VRef 8) [5; 7]%nat).
  { eapply array_of_records; [reflexivity..|done|]. by repeat constructor. }
  destruct (PhysicsGroup_defaults_come_from_first_record VNull VNull _ VUndefined _ _ Hrec)
    as (g & s' & l0 & Hhd & Hrun & Htable & Hlen & Hother & Hframe).
  injection Hhd as <-. exists g, s'. split; [exact Hrun|].
  rewrite Htable. split; [reflexivity|]. split; [reflexivity|].
  split; [exact Hlen|]. split.
  - apply Hother. rewrite !elem_of_cons, elem_of_nil. by intros [?|[?|?]].
  - rewrite Hframe; [reflexivity|done|done|by right].
Defined.

(** X9: a configuration record can be used for a second group: the second
    construction finds the hooks and the [classType] that the first one
    wrote, leaves the store as it is and builds the same defaults table. *)
Theorem PhysicsGroup_reuses_config_record
  (w sc config w' sc' config' : value) (l : loc) (s : state) :
  IsPlainObject (heap s) (VRef l) = true ->
  exists g1 s1 g2 s2,
    PhysicsGroup w sc (VRef l) config s = Some (g1, s1) /\
    PhysicsGroup w' sc' (VRef l) config' s1 = Some (g2, s2) /\
    heap s2 = heap s1 /\
    defaults g2 = defaults g1.
Proof.
  intros Hplain. pose proof (IsPlainObject_is_Some _ _ Hplain) as Hl.
  remember (classed (hooked (heap s) l) l) as h1 eqn:Hh1.
  assert (Hplain1 : IsPlainObject h1 (VRef l) = true).
  { rewrite Hh1. by rewrite IsPlainObject_classed, IsPlainObject_hooked. }
  assert (Hhooks1 : has_hooks h1 l).
  { rewrite Hh1. by apply classed_has_hooks, hooked_has_hooks. }
  assert (Hhooked : hooked h1 l = h1).
  { destruct Hhooks1 as [H1 H2]. unfold hooked. by rewrite (store_id _ _ _ _ H1), store_id. }
  assert (Hclass : field h1 l "classType"
                   = Some (GetFastValue (hooked (heap s) l) (VRef l) "classType"
                                        (VFun ArcadeSprite))).
  { rewrite Hh1. unfold classed. apply field_store_eq. by apply hooked_is_Some. }
  assert (Hclassed : classed h1 l = h1).
  { unfold classed. apply store_id. rewrite Hclass. f_equal. symmetry.
    unfold GetFastValue at 1. rewrite Hclass.
    destruct (GetFastValue (hooked (heap s) l) (VRef l) "classType" (VFun ArcadeSprite))
      eqn:Hv; try done.
    by apply GetFastValue_defined in Hv. }
  eexists _, _, _, _. split; [|split].
  - eapply (run_PhysicsGroup w sc); [by apply run_arguments_record|].
    cbn [heap]. by apply hooked_is_Some.
  - cbn [heap]. rewrite <- Hh1.
    eapply (run_PhysicsGroup w' sc'); [apply run_arguments_record; exact Hplain1|].
    cbn [heap]. rewrite Hhooked. by apply IsPlainObject_is_Some.
  - cbn [heap defaults]. rewrite <- ?Hh1. by rewrite Hhooked, Hclassed.
Qed.

Lemma PhysicsGroup_reuses_config_record_witness :
  exists g1 s1 g2 s2,
    PhysicsGroup VNull VNull (VRef 7) VUndefined sample_state = Some (g1, s1) /\
    PhysicsGroup VNull VNull (VRef 7) VUndefined s1 = Some (g2, s2) /\
    heap s2 = heap s1 /\
    defaults g2 = defaults g1.
Proof.
  exact (PhysicsGroup_reuses_config_record VNull VNull VUndefined VNull VNull VUndefined
           7 sample_state eq_refl).
Defined.

(** X10: when [children] is an array that starts with a configuration record
    and holds an [undefined] or [null] element, the constructor throws: the
    [forEach] of lines 74-78 assigns to a property of that element. *)
Theorem PhysicsGroup_throws_on_missing_record
  (w sc config : value) (a : loc) (o : obj) (v : value) (s : state) :
  heap s !! a = Some o -> kind o = ArrayObject ->
  IsPlainObject (heap s) (index (heap s) (VRef a) 0) = true ->
  v ∈ elems o -> v = VUndefined \/ v = VNull ->
  PhysicsGroup w sc (VRef a) config s = None.
Proof.
  intros Ha Hkind Hfirst Hin Hv.
  assert (Hargs : PhysicsGroup_arguments (VRef a) config s = None).
  { unfold PhysicsGroup_arguments. cbn [truthy negb andb].
    replace (IsPlainObject (heap s) (VRef a)) with false
      by (unfold IsPlainObject; by rewrite Ha, Hkind).
    replace (isArray (heap s) (VRef a)) with true
      by (unfold isArray; by rewrite Ha, Hkind).
    rewrite Hfirst. cbn [andb]. rewrite run_bind.
    unfold array_elems. rewrite Ha.
    by rewrite (for_each_inject_throws _ _ _ Hin Hv). }
  unfold PhysicsGroup. by rewrite run_bind, Hargs.
Qed.

Lemma PhysicsGroup_throws_on_missing_record_witness :
  PhysicsGroup VNull VNull (VRef 9) VUndefined
    {| heap := sample_heap ++ [Obj ArrayObject [] [VRef 5; VNull; VRef 7]]; trace := [] |}
  = None.
Proof.
  apply (PhysicsGroup_throws_on_missing_record VNull VNull VUndefined 9
           (Obj ArrayObject [] [VRef 5; VNull; VRef 7]) VNull);
    [reflexivity|reflexivity|reflexivity| |by right].
  right. left.
Defined.

(** X11: when [children] is not [null], the value of the [config] argument
    never reaches the result: the constructor does the same with any two
    values of [config]. ([null] is left out: with it the test of line 51
    decides whether line 58 hands [null] to [IsPlainObject].) *)
Theorem PhysicsGroup_ignores_config_argument
  (w sc children config config' : value) (s : state) :
  children <> VNull ->
  PhysicsGroup w sc children config s = PhysicsGroup w sc children config' s.
Proof.
  intros _. unfold PhysicsGroup. rewrite !run_bind.
  by rewrite (PhysicsGroup_arguments_config children config config').
Qed.

Lemma PhysicsGroup_ignores_config_argument_witness :
  VUndefined <> VNull /\
  PhysicsGroup VNull VNull VUndefined (VRef 5) sample_state
  = PhysicsGroup VNull VNull VUndefined VUndefined sample_state.
Proof.
  split; [done|].
  by apply (PhysicsGroup_ignores_config_argument VNull VNull VUndefined).
Defined.

(** X12: when [children] is left out (undefined, or falsy and not [null]),
    the constructor returns a group without defaults whatever [config] is:
    the configuration is a new record, every entry of the defaults table is
    undefined, and no cell of the store is changed. *)
Theorem PhysicsGroup_without_children_has_no_defaults
  (w sc children : value) (s : state) :
  truthy children = false ->
  children <> VNull ->
  exists g s',
    (forall config, PhysicsGroup w sc children config s = Some (g, s')) /\
    Forall (fun kv => kv.2 = VUndefined) (defaults g) /\
    trace s' = trace s ++ [GroupCall sc children (VRef (length (heap s)))] /\
    (forall l, (l < length (heap s))%nat -> heap s' !! l = heap s !! l).
Proof.
  intros Hfalsy _.
  assert (Hargs : forall config, PhysicsGroup_arguments children config s
            = Some ((children, VRef (length (heap s))),
                    {| heap := heap s ++ [hooks_literal]; trace := trace s |})).
  { intros config. apply run_arguments_new. right.
    destruct children; try done; (split; [done|by left]). }
  eexists _, _. split; [|split; [|split]].
  - intros config. apply run_PhysicsGroup_new, Hargs.
  - cbn [defaults]. unfold defaults_fields. cbn [map fst snd].
    repeat (constructor; [reflexivity|]). constructor.
  - done.
  - intros l Hl. cbn [heap]. by apply lookup_app_l.
Qed.

Lemma PhysicsGroup_without_children_has_no_defaults_witness :
  field sample_heap 5 "velocityX" = Some (VNum 5) /\
  exists g s',
    PhysicsGroup VNull VNull VUndefined (VRef 5) sample_state = Some (g, s') /\
    prop_get (defaults g) "setVelocityX" = VUndefined /\
    trace s' = [GroupCall VNull VUndefined (VRef 9)].
Proof.
  split; [reflexivity|].
  destruct (PhysicsGroup_without_children_has_no_defaults VNull VNull VUndefined
              sample_state eq_refl ltac:(done))
    as (g & s' & Hrun & Hall & Htrace & _).
  exists g, s'. split; [exact (Hrun (VRef 5))|]. split; [|exact Htrace].
  specialize (Hrun (VRef 5)). vm_compute in Hrun. by injection Hrun as <- <-.
Defined.

(** ** The constructor and the hooks together *)

Section Together.

Lemma lookup_prop_elem_of (k : string) (v : value) (ps : list (string * value)) :
  lookup_prop k ps = Some v -> (k, v) ∈ ps.
Proof.
  induction ps as [|[k' v'] ps IH]; cbn [lookup_prop]; [done|].
  destruct (String.eqb k k') eqn:E.
  - apply String.eqb_eq in E. intros [= ->]. subst. left.
  - intros H. right. by apply IH.
Qed.

(** An entry that holds a value is the subject of a setter call. *)
Lemma setter_calls_include_defined (table : list (string * value)) (key : string)
  (v : value) (b : loc) :
  prop_get table key = v -> v <> VUndefined ->
  BodyCall b key v ∈ setter_calls b table.
Proof.
  intros Hget Hv. unfold prop_get in Hget.
  destruct (lookup_prop key table) as [v'|] eqn:Hl; cbn in Hget; [subst v'|congruence].
  apply lookup_prop_elem_of in Hl. unfold setter_calls.
  apply list_elem_of_fmap. exists (key, v). split; [done|].
  apply list_elem_of_In, List.filter_In. split; [by apply list_elem_of_In|].
  by destruct v.
Qed.

(** The constructor on a configuration record passed as [children]. *)
Lemma run_PhysicsGroup_record (w sc config : value) (l : loc) (s : state) :
  IsPlainObject (heap s) (VRef l) = true ->
  PhysicsGroup w sc (VRef l) config s
  = Some ({| world := w;
             physicsType := DYNAMIC_BODY;
             defaults := PhysicsGroup_defaults (heap s) (VRef l);
             type := "PhysicsGroup";
             children := [] |},
          {| heap := classed (hooked (heap s) l) l;
             trace := trace s ++ [GroupCall sc VNull (VRef l)] |}).
Proof.
  intros Hplain. pose proof (IsPlainObject_is_Some _ _ Hplain) as Hl.
  rewrite (run_PhysicsGroup w sc _ _ _ _ _ _ (run_arguments_record l config s Hplain))
    by (by apply hooked_is_Some).
  cbn [heap trace]. do 2 f_equal. f_equal.
  apply PhysicsGroup_defaults_ext. intros k H1 H2 H3. unfold classed.
  rewrite field_store_ne by (right; congruence). by apply hooked_field_other.
Qed.

End Together.

(** X13: for a group of a World, the creation hook called twice on a child
    that had no body makes one attach call in all: the second call finds the
    body that the first one attached, repeats the setter calls on it and
    leaves the store as the first call left it. *)
Theorem createCallbackHandler_twice_attaches_once
  (this : group) (c : loc) (o : obj) (s : state) :
  heap s !! c = Some o ->
  table_ok (defaults this) ->
  is_World (heap s) (world this) = true ->
  no_body o ->
  exists s1 s2 b,
    createCallbackHandler this (VRef c) s = Some (VUndefined, s1) /\
    createCallbackHandler this (VRef c) s1 = Some (VUndefined, s2) /\
    field (heap s1) c "body" = Some (VRef b) /\
    trace s2 = trace s1 ++ setter_calls b (defaults this) /\
    attach_calls (trace s2) = S (attach_calls (trace s)) /\
    heap s2 = heap s1.
Proof.
  intros Hc Hok Hworld Hno.
  set (b := S (length (heap s))).
  remember (foldl (setter_store b) (attached (heap s) c) (defined_entries (defaults this)))
    as h1 eqn:Hh1.
  assert (Hb0 : is_Some (attached (heap s) c !! b)).
  { apply lookup_lt_is_Some. rewrite (attached_length c s). unfold b. lia. }
  assert (Hb1 : is_Some (h1 !! b)).
  { rewrite Hh1, setter_store_writes. by apply foldl_store_is_Some. }
  assert (Hfield : field h1 c "body" = Some (VRef b)).
  { rewrite Hh1, setter_store_read; [by apply (attached_body c o s)|done|by left]. }
  pose proof Hfield as Hfield'. unfold field in Hfield'.
  destruct (h1 !! c) as [o1|] eqn:Hc1; [|done]. cbn in Hfield'.
  exists {| heap := h1;
            trace := trace s ++ EnableBody (VRef c) DYNAMIC_BODY
                               :: setter_calls b (defaults this) |}.
  eexists _, b. split; [|split; [|split; [exact Hfield|]]].
  - rewrite Hh1. by apply (run_createCallbackHandler_fresh this c o s).
  - apply (run_createCallbackHandler_bodied this c o1); [done|done| |done].
    unfold prop_get. by rewrite Hfield'.
  - cbn [heap trace]. split; [done|]. split.
    + rewrite !attach_calls_app, attach_calls_setter_calls.
      change (EnableBody ?a ?t :: ?l) with ([EnableBody a t] ++ l).
      rewrite attach_calls_app, attach_calls_setter_calls. unfold attach_calls at 2.
      simpl. lia.
    + rewrite Hh1. apply setter_store_twice; [done|].
      apply defined_entries_NoDup. by destruct Hok.
Qed.

Lemma createCallbackHandler_twice_attaches_once_witness :
  is_World world_heap (world world_group) = true /\
  exists s1 s2,
    createCallbackHandler world_group (VRef 0) world_state = Some (VUndefined, s1) /\
    createCallbackHandler world_group (VRef 0) s1 = Some (VUndefined, s2) /\
    attach_calls (trace s2) = 1%nat /\
    heap s2 = heap s1.
Proof.
  split; [reflexivity|].
  destruct (createCallbackHandler_twice_attaches_once world_group 0 _ world_state
              (eq_refl : heap world_state !! 0%nat = Some _)
              (PhysicsGroup_defaults_ok sample_heap (VRef 5)) eq_refl eq_refl)
    as (s1 & s2 & b & Hrun1 & Hrun2 & _ & _ & Hattach & Hheap).
  exists s1, s2. by repeat split.
Defined.

(** X14: a group built from a configuration record applies what the record
    configures: for each of the 25 fields that the record defines, the
    creation hook calls the setter of that field, with the value of the
    field, on the body of every child it is given; a child without a body
    gets one from the group's world, which then has to be a World. *)
Theorem PhysicsGroup_config_fields_reach_the_body
  (w sc config : value) (l : loc) (s : state) :
  IsPlainObject (heap s) (VRef l) = true ->
  exists g s1,
    PhysicsGroup w sc (VRef l) config s = Some (g, s1) /\
    forall setter fld v,
      (setter, fld) ∈ defaults_fields ->
      field (heap s) l fld = Some v -> v <> VUndefined ->
      forall (c : loc) (o : obj) (s2 : state),
        heap s2 !! c = Some o ->
        (no_body o /\ is_World (heap s2) w = true) \/
          (exists b, has_body (heap s2) o b) ->
        exists s3 b,
          createCallbackHandler g (VRef c) s2 = Some (VUndefined, s3) /\
          field (heap s3) c "body" = Some (VRef b) /\
          BodyCall b setter v ∈ drop (length (trace s2)) (trace s3).
Proof.
  intros Hplain. eexists _, _. split; [by apply run_PhysicsGroup_record|].
  intros setter fld v Hin Hfld Hv c o s2 Hc Hbody.
  set (g := {| world := w; physicsType := DYNAMIC_BODY;
               defaults := PhysicsGroup_defaults (heap s) (VRef l);
               type := "PhysicsGroup"; children := [] |}).
  destruct (createCallbackHandler_attaches_or_not g c o s2 Hc
              (PhysicsGroup_defaults_ok _ _) Hbody) as (s3 & b & Hrun & Hfield & Htrace).
  exists s3, b. split; [exact Hrun|]. split; [exact Hfield|].
  rewrite Htrace, <- app_assoc, drop_app_length. apply elem_of_app. right.
  apply setter_calls_include_defined; [|done].
  cbn [defaults g]. rewrite (prop_get_PhysicsGroup_defaults _ _ _ _ Hin).
  unfold GetFastValue. rewrite Hfld. by destruct v.
Qed.

Lemma PhysicsGroup_config_fields_reach_the_body_witness :
  exists g s1 s3,
    PhysicsGroup (VRef 9) VNull (VRef 5) VUndefined world_state = Some (g, s1) /\
    is_World (heap s1) (VRef 9) = true /\
    createCallbackHandler g (VRef 0) s1 = Some (VUndefined, s3) /\
    BodyCall 11 "setVelocityX" (VNum 5) ∈ trace s3.
Proof.
  destruct (PhysicsGroup_config_fields_reach_the_body (VRef 9) VNull VUndefined 5
              world_state eq_refl) as (g & s1 & Hrun & Happly).
  assert (Hin : ("setVelocityX", "velocityX") ∈ defaults_fields).
  { unfold defaults_fields. do 18 (apply elem_of_cons; right). apply elem_of_cons. by left. }
  assert (Hs1 : exists o, heap s1 !! 0%nat = Some o /\ no_body o /\
                          is_World (heap s1) (VRef 9) = true).
  { vm_compute in Hrun. injection Hrun as <- <-. eexists. repeat split; reflexivity. }
  destruct Hs1 as (o & Ho & Hno & Hworld).
  destruct (Happly "setVelocityX" "velocityX" (VNum 5) Hin eq_refl ltac:(done)
              0%nat o s1 Ho (or_introl (conj Hno Hworld)))
    as (s3 & b & Hhook & Hbody & Hcall).
  exists g, s1, s3. split; [exact Hrun|]. split; [exact Hworld|]. split; [exact Hhook|].
  assert (b = 11%nat) as ->.
  { vm_compute in Hrun. injection Hrun as <- <-.
    vm_compute in Hhook. injection Hhook as <-.
    vm_compute in Hbody. by injection Hbody as <-. }
  exact (subseteq_drop _ _ _ Hcall).
Defined.
